(** * Rule evaluation engine of the audit-rule flagging service

    A shallow embedding of the rule executor of the server (the second
    unit of [server/services/quickbooksSchemaExtractor.js], imported by
    the routes as [services/ruleExecutor.js]):
    [getNestedValue], [isLineField], [compare], [evaluateCondition],
    [evaluateConditions], [executeRule], [executeMultipleRules], together
    with the part of the JavaScript runtime those functions rely on:
    IEEE-754 doubles and their conversions from and to text, JSON values
    and their coercions, loose equality.

    Conventions of the model:
    - numbers are binary64 values, represented by the standard library's
      [spec_float] with 53 bits of precision;
    - strings are sequences of ASCII characters (case mapping and
      white space are the ASCII ones);
    - records and rule values are JSON data: a property read looks at the
      own properties of an object, and at the indices and the [length] of
      an array or a string; members inherited from the built-in prototypes
      are not represented, and no object has a property of its own named
      [toString] or [valueOf];
    - a value of the transaction data and a value of a rule never are the
      same object, so comparing two objects or arrays by identity is false;
    - wall-clock readings ([execution_time], [flagged_at], [executed_at])
      and console output are left out. *)

From Stdlib Require Import ZArith List String Ascii Bool Lia DecimalString.
From Stdlib Require Import Floats.SpecFloat.
Import ListNotations.
Local Open Scope string_scope.
Local Open Scope Z_scope.

(** ** Text helpers *)

Module Text.

Fixpoint zeros (n : nat) : string :=
  match n with O => "" | S n' => String "0" (zeros n') end.

Definition take (n : nat) (s : string) : string := substring 0 n s.

Definition drop (n : nat) (s : string) : string :=
  substring n (String.length s - n) s.

Definition is_digit (c : ascii) : bool :=
  let n := nat_of_ascii c in ((48 <=? n) && (n <=? 57))%nat.

(** The white space of the ASCII range: TAB, LF, VT, FF, CR and SP. *)
Definition is_space (c : ascii) : bool :=
  let n := nat_of_ascii c in (((9 <=? n) && (n <=? 13)) || (n =? 32))%nat.

Definition lower (c : ascii) : ascii :=
  let n := nat_of_ascii c in
  if ((65 <=? n) && (n <=? 90))%nat then ascii_of_nat (n + 32) else c.

(** [String.prototype.toLowerCase] *)
Fixpoint toLowerCase (s : string) : string :=
  match s with
  | EmptyString => EmptyString
  | String c s' => String (lower c) (toLowerCase s')
  end.

(** [String.prototype.startsWith] *)
Definition startsWith (s p : string) : bool := prefix p s.

(** [String.prototype.includes] *)
Fixpoint includes (s needle : string) : bool :=
  prefix needle s ||
  match s with
  | EmptyString => false
  | String _ s' => includes s' needle
  end.

(** The longest prefix of characters satisfying [p], and what follows it. *)
Fixpoint span (p : ascii -> bool) (s : string) : string * string :=
  match s with
  | EmptyString => (EmptyString, EmptyString)
  | String c s' =>
      if p c then let '(a, b) := span p s' in (String c a, b)
      else (EmptyString, s)
  end.

Definition all_chars (p : ascii -> bool) (s : string) : bool :=
  match snd (span p s) with EmptyString => true | _ => false end.

Fixpoint rev_append (s acc : string) : string :=
  match s with
  | EmptyString => acc
  | String c s' => rev_append s' (String c acc)
  end.

Definition rev (s : string) : string := rev_append s EmptyString.

Definition trimStart (s : string) : string := snd (span is_space s).

Definition trim (s : string) : string :=
  rev (trimStart (rev (trimStart s))).

(** [s.split(sep)] for a one-character separator: always at least one
    piece, and [n] separators give [n + 1] pieces. *)
Fixpoint split_on (sep : ascii) (s : string) : list string :=
  match s with
  | EmptyString => [EmptyString]
  | String c s' =>
      if Ascii.eqb c sep then EmptyString :: split_on sep s'
      else match split_on sep s' with
           | [] => [String c EmptyString]
           | p :: ps => String c p :: ps
           end
  end.

(** [parts.join(sep)] *)
Fixpoint join (sep : string) (parts : list string) : string :=
  match parts with
  | [] => EmptyString
  | [p] => p
  | p :: ps => p ++ sep ++ join sep ps
  end.

End Text.

(** ** Numbers: binary64 and its conversions *)

Module JSNumber.

Definition prec : Z := 53.
Definition emax : Z := 1024.

Definition number := spec_float.

Definition NaN : number := S754_nan.
Definition of_Z (z : Z) : number := binary_normalize prec emax z 0 false.
Definition of_nat (n : nat) : number := of_Z (Z.of_nat n).
Definition eqb (x y : number) : bool := SFeqb x y.
Definition ltb (x y : number) : bool := SFltb x y.
Definition div (x y : number) : number := SFdiv prec emax x y.
Definition mul (x y : number) : number := SFmul prec emax x y.

Definition is_nan (x : number) : bool :=
  match x with S754_nan => true | _ => false end.

(** The double nearest to [m * 10^e10] (ties to even), with sign [neg]. *)
Definition of_decimal (neg : bool) (m e10 : Z) : number :=
  match m with
  | Zpos p =>
      match e10 with
      | Zneg q => SFdiv prec emax (S754_finite neg p 0)
                                  (S754_finite false (Pos.pow 10 q) 0)
      | _ => binary_round prec emax neg (Z.to_pos (m * 10 ^ e10)) 0
      end
  | _ => S754_zero neg
  end.

Definition digits_of_Z (n : Z) : string :=
  NilZero.string_of_uint (N.to_uint (Z.to_N n)).

Definition Z_of_digits (s : string) : Z :=
  match NilZero.uint_of_string s with
  | Some u => Z.of_N (N.of_uint u)
  | None => 0
  end.

(** *** Number to text *)

(** Exact value of a positive finite double, as a fraction [num/den]. *)
Definition ratio (m : positive) (e : Z) : Z * Z :=
  if 0 <=? e then (Zpos m * 2 ^ e, 1) else (Zpos m, 2 ^ (- e)).

Definition ndigits (n : Z) : Z := Z.of_nat (String.length (digits_of_Z n)).

(** The [n] with [10^(n-1) <= num/den < 10^n]. *)
Definition decimal_exponent (num den : Z) : Z :=
  if den <=? num then ndigits (num / den)
  else 1 - ndigits ((den - 1) / num).

(** [(num/den) / 10^q], as a fraction. *)
Definition scale10 (num den q : Z) : Z * Z :=
  if 0 <=? q then (num, den * 10 ^ q) else (num * 10 ^ (- q), den).

(** The integer closest to [a/b] (the even one on a tie), then the
    neighbour on the other side. *)
Definition neighbours (a b : Z) : Z * Z :=
  let lo := a / b in
  let r := a mod b in
  if r =? 0 then (lo, lo)
  else match 2 * r ?= b with
       | Lt => (lo, lo + 1)
       | Gt => (lo + 1, lo)
       | Eq => if Z.even lo then (lo, lo + 1) else (lo + 1, lo)
       end.

(** The fewest significant digits [s] (and their decimal exponent [q])
    such that [s * 10^q] reads back as [x]; among those the closest to
    [x]. Seventeen digits always suffice for a double. *)
Fixpoint shortest (fuel : nat) (k : Z) (x : number) (num den n0 : Z) : Z * Z :=
  match fuel with
  | O => (0, 0)
  | S fuel' =>
      let q := n0 - k in
      let '(a, b) := scale10 num den q in
      let '(c1, c2) := neighbours a b in
      if eqb (of_decimal false c1 q) x then (c1, q)
      else if eqb (of_decimal false c2 q) x then (c2, q)
      else shortest fuel' (k + 1) x num den n0
  end.

Fixpoint strip_zeros (fuel : nat) (s q : Z) : Z * Z :=
  match fuel with
  | O => (s, q)
  | S fuel' =>
      if (s mod 10 =? 0) && (0 <? s) then strip_zeros fuel' (s / 10) (q + 1)
      else (s, q)
  end.

(** [Number::toString] on a positive finite value. *)
Definition to_string_pos (m : positive) (e : Z) : string :=
  let '(num, den) := ratio m e in
  let n0 := decimal_exponent num den in
  let '(s0, q0) := shortest 17 1 (S754_finite false m e) num den n0 in
  let '(s, q) := strip_zeros 17 s0 q0 in
  let ds := digits_of_Z s in
  let k := ndigits s in
  let n := k + q in
  if (k <=? n) && (n <=? 21) then ds ++ Text.zeros (Z.to_nat (n - k))
  else if (0 <? n) && (n <=? 21) then
    Text.take (Z.to_nat n) ds ++ "." ++ Text.drop (Z.to_nat n) ds
  else if (-6 <? n) && (n <=? 0) then "0." ++ Text.zeros (Z.to_nat (- n)) ++ ds
  else
    let ex := (if n - 1 <? 0 then "-" else "+") ++ digits_of_Z (Z.abs (n - 1)) in
    if k =? 1 then ds ++ "e" ++ ex
    else Text.take 1 ds ++ "." ++ Text.drop 1 ds ++ "e" ++ ex.

(** [Number::toString] (radix 10) *)
Definition to_string (x : number) : string :=
  match x with
  | S754_nan => "NaN"
  | S754_zero _ => "0"
  | S754_infinity neg => if neg then "-Infinity" else "Infinity"
  | S754_finite neg m e => (if neg then "-" else "") ++ to_string_pos m e
  end.

(** [n / 10^f] written with exactly [f] fraction digits. *)
Definition fixed_digits (f : nat) (n : Z) : string :=
  let ds := digits_of_Z n in
  let k := String.length ds in
  match f with
  | O => ds
  | _ =>
      let padded := if (k <=? f)%nat then Text.zeros (f + 1 - k) ++ ds else ds in
      let cut := (String.length padded - f)%nat in
      Text.take cut padded ++ "." ++ Text.drop cut padded
  end.

(** [Number.prototype.toFixed]: the integer [n] with [n / 10^f] closest to
    [x], the larger one on a tie. *)
Definition toFixed (f : nat) (x : number) : string :=
  match x with
  | S754_zero _ => fixed_digits f 0
  | S754_finite neg m e =>
      let '(num, den) := ratio m e in
      if 10 ^ 21 * den <=? num then to_string x
      else
        let n := (2 * num * 10 ^ Z.of_nat f + den) / (2 * den) in
        (if neg then "-" else "") ++ fixed_digits f n
  | _ => to_string x
  end.

(** *** Text to number *)

Definition strip_sign (s : string) : bool * string :=
  match s with
  | String "-" s' => (true, s')
  | String "+" s' => (false, s')
  | _ => (false, s)
  end.

(** An exponent part [e], [e+] or [e-] followed by digits; without digits
    there is no exponent part and nothing is consumed. *)
Definition exponent_part (s : string) : Z * string :=
  match s with
  | String c s' =>
      if Ascii.eqb c "e" || Ascii.eqb c "E" then
        let '(neg, s'') := strip_sign s' in
        let '(ds, rest) := Text.span Text.is_digit s'' in
        match ds with
        | EmptyString => (0, s)
        | _ => ((if neg then - Z_of_digits ds else Z_of_digits ds), rest)
        end
      else (0, s)
  | EmptyString => (0, s)
  end.

(** The longest prefix of [s] that is a [StrDecimalLiteral], read as a
    number, and the rest of [s]; [None] when no prefix is one. *)
Definition decimal_prefix (s : string) : option (number * string) :=
  let '(neg, s1) := strip_sign s in
  if Text.startsWith s1 "Infinity" then Some (S754_infinity neg, Text.drop 8 s1)
  else
    let '(ip, r1) := Text.span Text.is_digit s1 in
    let '(fp, r2) :=
      match r1 with
      | String "." r => Text.span Text.is_digit r
      | _ => (EmptyString, r1)
      end in
    match ip ++ fp with
    | EmptyString => None
    | ds =>
        let '(ex, r3) := exponent_part r2 in
        Some (of_decimal neg (Z_of_digits ds) (ex - Z.of_nat (String.length fp)), r3)
    end.

(** The global [parseFloat], applied to a string. *)
Definition parseFloat (s : string) : number :=
  match decimal_prefix (Text.trimStart s) with
  | Some (n, _) => n
  | None => NaN
  end.

Definition digit_value (c : ascii) : Z :=
  let n := Z.of_nat (nat_of_ascii c) in
  if (48 <=? n) && (n <=? 57) then n - 48
  else if (97 <=? n) && (n <=? 102) then n - 87
  else if (65 <=? n) && (n <=? 70) then n - 55
  else 99.

Fixpoint radix_value (radix : Z) (s : string) (acc : Z) : option Z :=
  match s with
  | EmptyString => Some acc
  | String c s' =>
      if digit_value c <? radix then radix_value radix s' (acc * radix + digit_value c)
      else None
  end.

Definition radix_literal (radix : Z) (s : string) : number :=
  match s with
  | EmptyString => NaN
  | _ => match radix_value radix s 0 with
         | Some z => of_Z z
         | None => NaN
         end
  end.

(** A string that is a [StrDecimalLiteral] from end to end. *)
Definition decimal_literal (t : string) : number :=
  match decimal_prefix t with
  | Some (n, EmptyString) => n
  | _ => NaN
  end.

(** [StringToNumber]: the whole trimmed string must be a numeric literal;
    the empty string is zero. *)
Definition of_string (s : string) : number :=
  let t := Text.trim s in
  match t with
  | EmptyString => S754_zero false
  | String "0" (String c r) =>
      if Ascii.eqb c "x" || Ascii.eqb c "X" then radix_literal 16 r
      else if Ascii.eqb c "o" || Ascii.eqb c "O" then radix_literal 8 r
      else if Ascii.eqb c "b" || Ascii.eqb c "B" then radix_literal 2 r
      else decimal_literal t
  | _ => decimal_literal t
  end.

End JSNumber.

(** ** JSON values and their coercions *)

Module JSValue.

Import JSNumber.

#[local] Set Warnings "-register-all".

Inductive value : Type :=
| JUndefined
| JNull
| JBool (b : bool)
| JNum (n : number)
| JStr (s : string)
| JArr (items : list value)
| JObj (props : list (string * value)).

(** [v === undefined || v === null] *)
Definition is_absent (v : value) : bool :=
  match v with JUndefined | JNull => true | _ => false end.

(** [Array.isArray] *)
Definition isArray (v : value) : bool :=
  match v with JArr _ => true | _ => false end.

Definition is_object (v : value) : bool :=
  match v with JArr _ | JObj _ => true | _ => false end.

(** [ToString]: an array joins its elements with commas, writing nothing
    for [null] and [undefined]; a plain object is ["[object Object]"]. *)
Fixpoint to_string (v : value) : string :=
  match v with
  | JUndefined => "undefined"
  | JNull => "null"
  | JBool b => if b then "true" else "false"
  | JNum n => JSNumber.to_string n
  | JStr s => s
  | JArr items =>
      Text.join ","
        (map (fun x => match x with
                       | JUndefined | JNull => EmptyString
                       | _ => to_string x
                       end) items)
  | JObj _ => "[object Object]"
  end.

(** [ToPrimitive]: arrays and plain objects have no primitive [valueOf],
    so they become their string. *)
Definition to_primitive (v : value) : value :=
  match v with
  | JArr _ | JObj _ => JStr (to_string v)
  | _ => v
  end.

(** [ToNumber] *)
Definition to_number (v : value) : number :=
  match v with
  | JUndefined => NaN
  | JNull => S754_zero false
  | JBool b => if b then of_Z 1 else of_Z 0
  | JNum n => n
  | JStr s => of_string s
  | JArr _ | JObj _ => of_string (to_string v)
  end.

(** The global [parseFloat]: its argument is first converted to a string. *)
Definition parseFloat (v : value) : number := JSNumber.parseFloat (to_string v).

(** [x == y], following the steps of IsLooselyEqual. Each step either
    decides or converts one operand; four conversions are never needed. *)
Fixpoint loose_eq_steps (fuel : nat) (x y : value) : bool :=
  match fuel with
  | O => false
  | S fuel' =>
      match x, y with
      | JUndefined, JUndefined | JNull, JNull => true
      | JUndefined, JNull | JNull, JUndefined => true
      | JNum a, JNum b => JSNumber.eqb a b
      | JStr a, JStr b => String.eqb a b
      | JBool a, JBool b => Bool.eqb a b
      | JNum _, JStr s => loose_eq_steps fuel' x (JNum (of_string s))
      | JStr s, JNum _ => loose_eq_steps fuel' (JNum (of_string s)) y
      | JBool _, _ => loose_eq_steps fuel' (JNum (to_number x)) y
      | _, JBool _ => loose_eq_steps fuel' x (JNum (to_number y))
      | (JNum _ | JStr _), (JArr _ | JObj _) => loose_eq_steps fuel' x (to_primitive y)
      | (JArr _ | JObj _), (JNum _ | JStr _) => loose_eq_steps fuel' (to_primitive x) y
      | _, _ => false
      end
  end.

Definition loose_eq (x y : value) : bool := loose_eq_steps 5 x y.

(** [SameValueZero], the comparison of [Array.prototype.includes]. *)
Definition same_value_zero (x y : value) : bool :=
  match x, y with
  | JUndefined, JUndefined | JNull, JNull => true
  | JBool a, JBool b => Bool.eqb a b
  | JNum a, JNum b => JSNumber.eqb a b || (is_nan a && is_nan b)
  | JStr a, JStr b => String.eqb a b
  | _, _ => false
  end.

(** [arr.includes(x)] *)
Definition array_includes (arr : list value) (x : value) : bool :=
  existsb (fun y => same_value_zero y x) arr.

Fixpoint lookup (key : string) (props : list (string * value)) : value :=
  match props with
  | [] => JUndefined
  | (k, v) :: rest => if String.eqb k key then v else lookup key rest
  end.

(** A property key that is an array index: the decimal writing of a
    natural number, without leading zeros. *)
Definition index_of_key (key : string) : option nat :=
  match key with
  | EmptyString => None
  | _ =>
      if Text.all_chars Text.is_digit key
         && String.eqb (digits_of_Z (Z_of_digits key)) key
      then Some (Z.to_nat (Z_of_digits key))
      else None
  end.

Definition string_at (s : string) (i : nat) : value :=
  match String.get i s with
  | Some c => JStr (String c EmptyString)
  | None => JUndefined
  end.

(** [current[key]] for a [current] that is neither [null] nor [undefined],
    as far as own properties go. A key that names a member inherited from
    a built-in prototype ([map], [constructor], ...) finds that member in
    the language and nothing here: what is stated of such keys is stated
    of the data only. *)
Definition getProp (current : value) (key : string) : value :=
  match current with
  | JObj props => lookup key props
  | JArr items =>
      match index_of_key key with
      | Some i => nth i items JUndefined
      | None => if String.eqb key "length"
                then JNum (of_nat (List.length items)) else JUndefined
      end
  | JStr s =>
      match index_of_key key with
      | Some i => string_at s i
      | None => if String.eqb key "length"
                then JNum (of_nat (String.length s)) else JUndefined
      end
  | _ => JUndefined
  end.

End JSValue.

(** ** Exceptions *)

Module Exn.

Inductive exn : Type :=
| Error (message : string)
| TypeError (message : string).

(** [error.message] *)
Definition message (e : exn) : string :=
  match e with Error m | TypeError m => m end.

(** The outcome of a computation that may throw. *)
Inductive outcome (A : Type) : Type :=
| Return (a : A)
| Throw (e : exn).

Arguments Return {A} a.
Arguments Throw {A} e.

Definition bind {A B : Type} (c : outcome A) (k : A -> outcome B) : outcome B :=
  match c with
  | Return a => k a
  | Throw e => Throw e
  end.

(** [xs.map(f)] for a callback that may throw: elements are visited in
    order and the first exception ends the traversal. *)
Fixpoint mapM {A B : Type} (f : A -> outcome B) (xs : list A) : outcome (list B) :=
  match xs with
  | [] => Return []
  | x :: xs' =>
      bind (f x) (fun y => bind (mapM f xs') (fun ys => Return (y :: ys)))
  end.

End Exn.

Notation "x <- c ;; k" := (Exn.bind c (fun x => k))
  (at level 61, c at next level, right associativity).

(** ** The data of the engine *)

(** One condition of a rule; [logical_operator] is optional. *)
Module Condition.
Record t : Type := {
  field : string;
  operator : string;
  value : JSValue.value;
  logical_operator : option string
}.
End Condition.

(** A rule, as far as the executor reads it. [conditions] is [None] when
    the property is missing. *)
Module Rule.
Record t : Type := {
  id : JSValue.value;
  rule_type : JSValue.value;
  conditions : option (list Condition.t);
  action : JSValue.value;
  reason : JSValue.value
}.
End Rule.

(** [flaggedFieldData]: [null], or one of the three object shapes that
    [executeRule] builds. *)
Inductive flagged_field_data : Type :=
| NoFieldData
| LineFieldData (line_index : Z) (line_data : JSValue.value)
    (field_path : string) (field_value : JSValue.value)
| NestedFieldData (parent_path : string) (parent_object : JSValue.value)
    (field_name : string) (field_value : JSValue.value)
| TopFieldData (field_name : string) (field_value : JSValue.value)
    (parent_object : JSValue.value).

(** An entry of [matched_conditions]. *)
Module Matched.
Record t : Type := {
  field : string;
  operator : string;
  value : JSValue.value;
  actual_value : JSValue.value;
  flagged_field_data : flagged_field_data
}.
End Matched.

(** An entry of [flagged_transactions]. *)
Module Flagged.
Record t : Type := {
  id : JSValue.value;
  transaction_data : JSValue.value;
  matched_conditions : list Matched.t;
  action : JSValue.value;
  reason : JSValue.value
}.
End Flagged.

(** [execution_summary]; [flag_rate] is [None] when the property is not
    there. *)
Module Summary.
Record t : Type := {
  total_checked : nat;
  flagged_count : nat;
  flag_rate : option string
}.
End Summary.

Module RuleData.
Record t : Type := {
  rule_id : JSValue.value;
  rule_type : JSValue.value;
  entity : string;
  total_transactions : nat;
  flagged_transactions : list Flagged.t;
  execution_summary : Summary.t
}.
End RuleData.

(** What [executeRule] resolves to. *)
Module Result.
Record t : Type := {
  success : bool;
  error : option string;
  data : option RuleData.t
}.
End Result.

Module BatchSummary.
Record t : Type := {
  total_rules_executed : nat;
  successful_executions : nat;
  failed_executions : nat;
  total_transactions_checked : nat;
  total_transactions_flagged : nat
}.
End BatchSummary.

Module BatchData.
Record t : Type := {
  summary : BatchSummary.t;
  individual_results : list Result.t
}.
End BatchData.

(** What [executeMultipleRules] resolves to. *)
Module BatchResult.
Record t : Type := {
  success : bool;
  error : option string;
  data : option BatchData.t
}.
End BatchResult.

(** ** The rule engine *)

Module Engine.

Import JSNumber JSValue Exn.

Abbreviation condition := Condition.t.
Abbreviation rule := Rule.t.

(** A transaction record is a JSON object. *)
Definition record : Type := list (string * JSValue.value).

(** One step of the [reduce] in [getNestedValue]. A key made of digits
    goes through [parseInt], and the number it gives is the property key. *)
Definition nested_step (current : JSValue.value) (key : string) : JSValue.value :=
  if is_absent current then JUndefined
  else
    match key with
    | EmptyString => getProp current key
    | _ =>
        if Text.all_chars Text.is_digit key
        then getProp current (JSNumber.to_string (of_decimal false (Z_of_digits key) 0))
        else getProp current key
    end.

Definition getNestedValue (obj : JSValue.value) (path : string) : JSValue.value :=
  fold_left nested_step (Text.split_on "." path) obj.

Definition isLineField (field : string) : bool := Text.startsWith field "Line.".

Definition compare (fieldValue : JSValue.value) (operator : string)
    (value : JSValue.value) : bool :=
  if is_absent fieldValue then false
  else if (operator =? "eq")%string then loose_eq fieldValue value
  else if (operator =? "ne")%string then negb (loose_eq fieldValue value)
  else if (operator =? "gt")%string then
    JSNumber.ltb (parseFloat value) (parseFloat fieldValue)
  else if (operator =? "lt")%string then
    JSNumber.ltb (parseFloat fieldValue) (parseFloat value)
  else if (operator =? "contains")%string then
    Text.includes (Text.toLowerCase (to_string fieldValue))
                  (Text.toLowerCase (to_string value))
  else if (operator =? "not_contains")%string then
    negb (Text.includes (Text.toLowerCase (to_string fieldValue))
                        (Text.toLowerCase (to_string value)))
  else if (operator =? "in")%string then
    match value with
    | JArr items => array_includes items fieldValue
    | _ => false
    end
  else if (operator =? "not_in")%string then
    match value with
    | JArr items => negb (array_includes items fieldValue)
    | _ => false
    end
  else false.

(** The predicate applied to a line item, in [evaluateCondition] and again
    in the evidence of [executeRule]. *)
Definition line_matches (lineFieldPath : string) (c : condition)
    (line : JSValue.value) : bool :=
  let fieldValue := getNestedValue line lineFieldPath in
  compare fieldValue (Condition.operator c) (Condition.value c).

Definition evaluateCondition (transaction : record) (c : condition) : bool :=
  if isLineField (Condition.field c) then
    let lines := getProp (JObj transaction) "Line" in
    match lines with
    | JArr items =>
        let lineFieldPath := Text.drop 5 (Condition.field c) in
        existsb (line_matches lineFieldPath c) items
    | _ => false
    end
  else
    let fieldValue := getNestedValue (JObj transaction) (Condition.field c) in
    compare fieldValue (Condition.operator c) (Condition.value c).

(** [conditions[i].logical_operator || 'AND']: a missing or empty operator
    is replaced by ['AND']. *)
Definition op_of (c : condition) : string :=
  match Condition.logical_operator c with
  | None | Some EmptyString => "AND"
  | Some op => op
  end.

(** The [for] loop of [evaluateConditions], [todo] iterations from index
    [i]. Next to the running result it keeps the log of the conditions
    handed to [evaluateCondition], in call order. *)
Fixpoint conditions_loop (transaction : record) (conds : list condition)
    (todo i : nat) (st : bool * list condition) : bool * list condition :=
  match todo with
  | O => st
  | S todo' =>
      match nth_error conds i with
      | None => st
      | Some ci =>
          let '(result, log) := st in
          let op := op_of ci in
          let condResult := evaluateCondition transaction ci in
          let result' := if (op =? "OR")%string then result || condResult
                         else result && condResult in
          conditions_loop transaction conds todo' (S i) (result', (log ++ [ci])%list)
      end
  end.

Definition evaluateConditions_logged (transaction : record)
    (conds : option (list condition)) : bool * list condition :=
  match conds with
  | None | Some [] => (true, [])
  | Some (c0 :: rest) =>
      conditions_loop transaction (c0 :: rest) (List.length (c0 :: rest) - 1) 1
        (evaluateCondition transaction c0, [c0])
  end.

Definition evaluateConditions (transaction : record)
    (conds : option (list condition)) : bool :=
  fst (evaluateConditions_logged transaction conds).

(** [xs.findIndex(p)]: the first index whose element satisfies [p], or -1. *)
Fixpoint findIndex_from {A : Type} (p : A -> bool) (xs : list A) (i : Z) : Z :=
  match xs with
  | [] => -1
  | x :: xs' => if p x then i else findIndex_from p xs' (i + 1)
  end.

Definition findIndex {A : Type} (p : A -> bool) (xs : list A) : Z :=
  findIndex_from p xs 0.

(** [lines[i]] for a number [i] that is an index or -1. *)
Definition item_at (lines : JSValue.value) (i : Z) : JSValue.value :=
  match lines with
  | JArr items => if i <? 0 then JUndefined else nth (Z.to_nat i) items JUndefined
  | JStr s => if i <? 0 then JUndefined else string_at s (Z.to_nat i)
  | JObj props => lookup (JSNumber.to_string (of_Z i)) props
  | _ => JUndefined
  end.

(** [lines.findIndex(p)] on whatever [transaction.Line] is: only an array
    has the method. *)
Definition lines_findIndex (lines : JSValue.value) (p : JSValue.value -> bool)
    : outcome Z :=
  match lines with
  | JArr items => Return (findIndex p items)
  | JUndefined =>
      Throw (TypeError "Cannot read properties of undefined (reading 'findIndex')")
  | JNull =>
      Throw (TypeError "Cannot read properties of null (reading 'findIndex')")
  | _ => Throw (TypeError "lines.findIndex is not a function")
  end.

(** The callback of [rule.conditions.map] in [executeRule]. *)
Definition matched_condition (transaction : record) (c : condition)
    : outcome Matched.t :=
  let actualValue := getNestedValue (JObj transaction) (Condition.field c) in
  flaggedFieldData <-
    (if isLineField (Condition.field c) then
       let lines := getProp (JObj transaction) "Line" in
       let lineFieldPath := Text.drop 5 (Condition.field c) in
       matchingLineIndex <- lines_findIndex lines (line_matches lineFieldPath c) ;;
       if negb (matchingLineIndex =? -1) then
         Return (LineFieldData matchingLineIndex
                   (item_at lines matchingLineIndex)
                   (Condition.field c) actualValue)
       else Return NoFieldData
     else
       let fieldParts := Text.split_on "." (Condition.field c) in
       let parentPath := Text.join "." (removelast fieldParts) in
       let fieldName := last fieldParts EmptyString in
       match parentPath with
       | String _ _ =>
           let parentObject := getNestedValue (JObj transaction) parentPath in
           Return (NestedFieldData parentPath parentObject fieldName actualValue)
       | EmptyString =>
           Return (TopFieldData (Condition.field c) actualValue (JObj transaction))
       end) ;;
  Return {| Matched.field := Condition.field c;
            Matched.operator := Condition.operator c;
            Matched.value := Condition.value c;
            Matched.actual_value := actualValue;
            Matched.flagged_field_data := flaggedFieldData |}.

(** [rule.conditions.map(callback)] *)
Definition conditions_map {B : Type} (r : rule) (callback : condition -> outcome B)
    : outcome (list B) :=
  match Rule.conditions r with
  | Some cs => mapM callback cs
  | None => Throw (TypeError "Cannot read properties of undefined (reading 'map')")
  end.

(** The loop of [executeRule] over the transactions. *)
Fixpoint flag_loop (r : rule) (transactions : list record)
    (flaggedTransactions : list Flagged.t) : outcome (list Flagged.t) :=
  match transactions with
  | [] => Return flaggedTransactions
  | transaction :: rest =>
      let isFlagged := evaluateConditions transaction (Rule.conditions r) in
      if isFlagged then
        matched <- conditions_map r (matched_condition transaction) ;;
        flag_loop r rest
          (flaggedTransactions ++
           [{| Flagged.id := getProp (JObj transaction) "Id";
               Flagged.transaction_data := JObj transaction;
               Flagged.matched_conditions := matched;
               Flagged.action := Rule.action r;
               Flagged.reason := Rule.reason r |}])%list
      else flag_loop r rest flaggedTransactions
  end.

(** [(flagged / total * 100).toFixed(2) + '%'], or ['0%']. *)
Definition flag_rate_of (flagged total : nat) : string :=
  if (0 <? total)%nat
  then toFixed 2 (mul (div (of_nat flagged) (of_nat total)) (of_Z 100)) ++ "%"
  else "0%".

(** The [try] block of [executeRule]. [fetched] is what the call of
    [fetchQuickBooksData] comes back with: the records, or an exception. *)
Definition executeRule_try (r : rule) (entity : string)
    (fetched : outcome (list record)) : outcome RuleData.t :=
  transactions <- fetched ;;
  if (List.length transactions =? 0)%nat then
    Return {| RuleData.rule_id := Rule.id r;
              RuleData.rule_type := Rule.rule_type r;
              RuleData.entity := entity;
              RuleData.total_transactions := 0;
              RuleData.flagged_transactions := [];
              RuleData.execution_summary :=
                {| Summary.total_checked := 0;
                   Summary.flagged_count := 0;
                   Summary.flag_rate := None |} |}
  else
    flaggedTransactions <- flag_loop r transactions [] ;;
    Return {| RuleData.rule_id := Rule.id r;
              RuleData.rule_type := Rule.rule_type r;
              RuleData.entity := entity;
              RuleData.total_transactions := List.length transactions;
              RuleData.flagged_transactions := flaggedTransactions;
              RuleData.execution_summary :=
                {| Summary.total_checked := List.length transactions;
                   Summary.flagged_count := List.length flaggedTransactions;
                   Summary.flag_rate :=
                     Some (flag_rate_of (List.length flaggedTransactions)
                                        (List.length transactions)) |} |}.

(** The result built by the [catch] block of [executeRule]. *)
Definition rule_failure (e : exn) : Result.t :=
  {| Result.success := false;
     Result.error := Some ("Failed to execute rule: " ++ message e);
     Result.data := None |}.

Definition executeRule (r : rule) (entity : string)
    (fetched : outcome (list record)) : Result.t :=
  match executeRule_try r entity fetched with
  | Return d =>
      {| Result.success := true; Result.error := None; Result.data := Some d |}
  | Throw e => rule_failure e
  end.

(** [executeRule] fetches the records itself, so a batch of rules fetches
    once per rule: [fetch k] is the outcome of the fetch number [k]. The
    body of the loop pushes the result of the rule. *)
Definition push_result (entity : string) (fetch : nat -> outcome (list record))
    (results : list Result.t) (r : rule) : list Result.t :=
  (results ++ [executeRule r entity (fetch (List.length results))])%list.

Definition checked_of (res : Result.t) : nat :=
  match Result.data res with
  | Some d => if Result.success res
              then Summary.total_checked (RuleData.execution_summary d) else 0
  | None => 0
  end.

Definition flagged_of (res : Result.t) : nat :=
  match Result.data res with
  | Some d => if Result.success res
              then Summary.flagged_count (RuleData.execution_summary d) else 0
  | None => 0
  end.

(** No statement of the [try] block of [executeMultipleRules] throws on an
    array of rules, so its [catch] block has no part here. *)
Definition executeMultipleRules (rules : list rule) (entity : string)
    (fetch : nat -> outcome (list record)) : BatchResult.t :=
  let results := fold_left (push_result entity fetch) rules [] in
  let summary :=
    {| BatchSummary.total_rules_executed := List.length rules;
       BatchSummary.successful_executions :=
         List.length (filter Result.success results);
       BatchSummary.failed_executions :=
         List.length (filter (fun res => negb (Result.success res)) results);
       BatchSummary.total_transactions_checked :=
         fold_left (fun acc res => (acc + checked_of res)%nat) results 0%nat;
       BatchSummary.total_transactions_flagged :=
         fold_left (fun acc res => (acc + flagged_of res)%nat) results 0%nat |} in
  {| BatchResult.success := true;
     BatchResult.error := None;
     BatchResult.data :=
       Some {| BatchData.summary := summary;
               BatchData.individual_results := results |} |}.

End Engine.

(** ** Properties of the engine *)

Import JSNumber JSValue Exn Engine.

(** *** The engine on the examples of the specification *)

Example compare_gt_numeric_strings :
  compare (JStr "5") "gt" (JStr "3") = true
  /\ compare (JStr "abc") "gt" (JStr "3") = false.
Proof. vm_compute. split; reflexivity. Qed.

Example compare_contains_ignores_case :
  compare (JStr "VISA") "contains" (JStr "visa") = true.
Proof. vm_compute. reflexivity. Qed.

Example getNestedValue_line_index :
  getNestedValue
    (JObj [("Line", JArr [JObj [("Amount", JNum (of_Z 150))];
                          JObj [("Amount", JNum (of_Z 50))]])])
    "Line.1.Amount"
  = JNum (of_Z 50).
Proof. vm_compute. reflexivity. Qed.

Example number_texts :
  JSNumber.to_string (of_string "600.50") = "600.5"
  /\ JSNumber.to_string (div (of_Z 1) (of_Z 3)) = "0.3333333333333333"
  /\ JSNumber.to_string (of_string "1e21") = "1e+21"
  /\ toFixed 2 (of_string "1.005") = "1.00"
  /\ is_nan (of_string "12px") = true
  /\ JSNumber.to_string (JSNumber.parseFloat "12px") = "12".
Proof. vm_compute. repeat split. Qed.

(** *** The condition fold *)

(** The two logical operators of a rule, and how the fold of the
    specification combines an accumulator with the outcome of the next
    condition. *)
Inductive logical : Type := AND | OR.

(** The operator a condition carries; [AND] when it carries none (and for
    anything that is not ["OR"]). *)
Definition logical_of (c : condition) : logical :=
  match Condition.logical_operator c with
  | Some op => if (op =? "OR")%string then OR else AND
  | None => AND
  end.

Definition combine_with (op : logical) (acc outcome_i : bool) : bool :=
  match op with
  | AND => acc && outcome_i
  | OR => acc || outcome_i
  end.

(** The flat left-to-right fold of the specification. *)
Definition flat_fold (transaction : record) (c0 : condition)
    (rest : list condition) : bool :=
  fold_left
    (fun acc ci => combine_with (logical_of ci) acc (evaluateCondition transaction ci))
    rest (evaluateCondition transaction c0).

Definition loop_step (transaction : record) (st : bool * list condition)
    (ci : condition) : bool * list condition :=
  (combine_with (logical_of ci) (fst st) (evaluateCondition transaction ci),
   (snd st ++ [ci])%list).

Lemma op_of_or (c : condition) :
  (op_of c =? "OR")%string = match logical_of c with OR => true | AND => false end.
Proof.
  unfold op_of, logical_of.
  destruct (Condition.logical_operator c) as [[|a op]|]; try reflexivity.
  destruct (String a op =? "OR")%string; reflexivity.
Qed.

Lemma nth_error_middle {A : Type} (pre post : list A) (x : A) :
  nth_error (pre ++ x :: post) (List.length pre) = Some x.
Proof. induction pre as [|y pre IH]; simpl; auto. Qed.

(** The index loop visits the conditions after [pre] one by one. *)
Lemma conditions_loop_fold (transaction : record) (post pre : list condition)
    (st : bool * list condition) :
  conditions_loop transaction (pre ++ post) (List.length post) (List.length pre) st
  = fold_left (loop_step transaction) post st.
Proof.
  revert pre st.
  induction post as [|ci post IH]; intros pre st; simpl; [reflexivity|].
  rewrite nth_error_middle. destruct st as [result log].
  rewrite op_of_or.
  transitivity
    (conditions_loop transaction ((pre ++ [ci]) ++ post) (List.length post)
       (List.length (pre ++ [ci])%list) (loop_step transaction (result, log) ci)).
  - rewrite <- app_assoc, length_app. simpl.
    replace (List.length pre + 1)%nat with (S (List.length pre)) by lia.
    unfold loop_step. simpl. destruct (logical_of ci); reflexivity.
  - apply IH.
Qed.

Lemma loop_step_fst (transaction : record) (cs : list condition)
    (st : bool * list condition) :
  fst (fold_left (loop_step transaction) cs st)
  = fold_left
      (fun acc ci => combine_with (logical_of ci) acc (evaluateCondition transaction ci))
      cs (fst st).
Proof.
  revert st. induction cs as [|c cs IH]; intros st; simpl; [reflexivity|].
  rewrite IH. reflexivity.
Qed.

Lemma loop_step_snd (transaction : record) (cs : list condition)
    (st : bool * list condition) :
  snd (fold_left (loop_step transaction) cs st) = (snd st ++ cs)%list.
Proof.
  revert st. induction cs as [|c cs IH]; intros st; simpl.
  - rewrite app_nil_r. reflexivity.
  - rewrite IH. simpl. rewrite <- app_assoc. reflexivity.
Qed.

Lemma evaluateConditions_logged_cons (transaction : record) (c0 : condition)
    (rest : list condition) :
  evaluateConditions_logged transaction (Some (c0 :: rest))
  = fold_left (loop_step transaction) rest (evaluateCondition transaction c0, [c0]).
Proof.
  unfold evaluateConditions_logged.
  replace (List.length (c0 :: rest) - 1)%nat with (List.length rest) by (simpl; lia).
  exact (conditions_loop_fold transaction rest [c0] _).
Qed.

(** A condition with the given field and logical operator, for the
    examples: it tests [field == "yes"]. *)
Definition says_yes (f : string) (op : option string) : condition :=
  {| Condition.field := f; Condition.operator := "eq";
     Condition.value := JStr "yes"; Condition.logical_operator := op |}.

(** C1. On a non-empty condition list, [evaluateConditions] is the flat
    left-to-right fold: the accumulator starts as the outcome of the first
    condition and each later condition is combined with it through that
    condition's own operator ([AND] when it has none). Every condition is
    handed to [evaluateCondition], once and in order, whatever the
    accumulator is. There is no precedence: [A AND B OR C] is
    [(A AND B) OR C], which differs from [A AND (B OR C)] on some input. *)
Theorem evaluateConditions_flat_fold :
  (forall (transaction : record) (c0 : condition) (rest : list condition),
      evaluateConditions transaction (Some (c0 :: rest))
      = flat_fold transaction c0 rest
      /\ snd (evaluateConditions_logged transaction (Some (c0 :: rest)))
         = c0 :: rest)
  /\ (forall (transaction : record) (a b c : condition),
         logical_of b = AND -> logical_of c = OR ->
         evaluateConditions transaction (Some [a; b; c])
         = (evaluateCondition transaction a && evaluateCondition transaction b)
           || evaluateCondition transaction c)
  /\ (let transaction : record := [("C", JStr "yes")] in
      let a := says_yes "A" None in
      let b := says_yes "B" (Some "AND") in
      let c := says_yes "C" (Some "OR") in
      evaluateConditions transaction (Some [a; b; c]) = true
      /\ evaluateCondition transaction a
         && (evaluateCondition transaction b || evaluateCondition transaction c)
         = false).
Proof.
  split; [|split].
  - intros transaction c0 rest. unfold evaluateConditions.
    rewrite evaluateConditions_logged_cons. split.
    + rewrite loop_step_fst. reflexivity.
    + rewrite loop_step_snd. reflexivity.
  - intros transaction a b c Hb Hc. unfold evaluateConditions.
    rewrite evaluateConditions_logged_cons, loop_step_fst. simpl.
    rewrite Hb, Hc. reflexivity.
  - vm_compute. split; reflexivity.
Qed.

Lemma evaluateConditions_flat_fold_witness :
  let transaction : record := [("A", JStr "yes"); ("B", JStr "no")] in
  let a := says_yes "A" None in
  let b := says_yes "B" None in
  let c := says_yes "C" (Some "OR") in
  logical_of b = AND /\ logical_of c = OR /\
  evaluateConditions transaction (Some [a; b; c])
  = (evaluateCondition transaction a && evaluateCondition transaction b)
    || evaluateCondition transaction c.
Proof.
  intros transaction a b c.
  split; [reflexivity|]. split; [reflexivity|].
  apply (proj1 (proj2 evaluateConditions_flat_fold) transaction a b c);
    reflexivity.
Defined.

(** *** Line items *)

Lemma substring_whole (s : string) : substring 0 (String.length s) s = s.
Proof. induction s as [|c s IH]; simpl; [|rewrite IH]; reflexivity. Qed.

Lemma drop_Line_prefix (subPath : string) :
  Text.drop 5 ("Line." ++ subPath) = subPath.
Proof. unfold Text.drop. simpl. rewrite Nat.sub_0_r. apply substring_whole. Qed.

Lemma isLineField_prefixed (subPath : string) :
  isLineField ("Line." ++ subPath) = true.
Proof. destruct subPath; reflexivity. Qed.

(** C2. For a condition on ["Line." ++ subPath]: when the [Line] property
    of the transaction is an array, the condition holds exactly when some
    element of it satisfies [compare] on the value found under [subPath];
    when [Line] is missing or is anything else, the condition is false. *)
Theorem line_condition_is_existential
    (transaction : record) (c : condition) (subPath : string) :
  Condition.field c = "Line." ++ subPath ->
  isLineField (Condition.field c) = true
  /\ Text.drop 5 (Condition.field c) = subPath
  /\ match getProp (JObj transaction) "Line" with
     | JArr items =>
         evaluateCondition transaction c = true <->
         exists element,
           In element items /\
           compare (getNestedValue element subPath)
                   (Condition.operator c) (Condition.value c) = true
     | _ => evaluateCondition transaction c = false
     end.
Proof.
  intros Hfield. unfold evaluateCondition.
  rewrite Hfield, isLineField_prefixed, drop_Line_prefix.
  split; [reflexivity|]. split; [reflexivity|].
  destruct (getProp (JObj transaction) "Line"); try reflexivity.
  unfold line_matches. apply existsb_exists.
Qed.

Lemma line_condition_is_existential_witness :
  let transaction : record :=
    [("Id", JStr "7");
     ("Line", JArr [JObj [("Kind", JStr "fee")]; JObj [("Kind", JStr "tax")]])] in
  let c := {| Condition.field := "Line.Kind"; Condition.operator := "eq";
              Condition.value := JStr "tax"; Condition.logical_operator := None |} in
  Condition.field c = "Line." ++ "Kind" /\
  (evaluateCondition transaction c = true <->
   exists element,
     In element [JObj [("Kind", JStr "fee")]; JObj [("Kind", JStr "tax")]] /\
     compare (getNestedValue element "Kind")
             (Condition.operator c) (Condition.value c) = true).
Proof.
  intros transaction c. split; [reflexivity|].
  apply (proj2 (proj2 (line_condition_is_existential transaction c "Kind" eq_refl))).
Defined.

(** *** The comparison operators *)

(** C6. Whatever the operator and the target, [compare] is false on an
    actual value that is [undefined] or [null]. *)
Theorem compare_absent_is_false (operator : string) (target : JSValue.value) :
  compare JUndefined operator target = false
  /\ compare JNull operator target = false.
Proof. split; reflexivity. Qed.

(** C8. On a target that is not an array, [in] and [not_in] are both
    false, whatever the actual value. *)
Theorem in_and_not_in_false_on_non_array (actual target : JSValue.value) :
  isArray target = false ->
  compare actual "in" target = false
  /\ compare actual "not_in" target = false.
Proof.
  intros Htarget. unfold compare.
  destruct (is_absent actual); [split; reflexivity|].
  destruct target; try discriminate Htarget; split; reflexivity.
Qed.

Lemma in_and_not_in_false_on_non_array_witness :
  isArray (JStr "not-an-array") = false
  /\ compare (JNum (of_Z 5)) "in" (JStr "not-an-array") = false
  /\ compare (JNum (of_Z 5)) "not_in" (JStr "not-an-array") = false.
Proof.
  split; [reflexivity|].
  apply (in_and_not_in_false_on_non_array (JNum (of_Z 5)) (JStr "not-an-array")).
  reflexivity.
Defined.

(** *** Equality *)

(** The equality the specification describes: numeric equality when both
    values parse as numbers, and equality of the string coercions
    otherwise. [parses] is the reading of "parses as a number": the
    [parseFloat] that [gt] and [lt] use, or the conversion [to_number]. *)
Definition described_eq (parses : JSValue.value -> number)
    (actual target : JSValue.value) : bool :=
  if negb (is_nan (parses actual)) && negb (is_nan (parses target))
  then JSNumber.eqb (parses actual) (parses target)
  else (to_string actual =? to_string target)%string.

(** Strings, arrays and plain objects: the values that loose equality
    compares through their string coercion. *)
Definition is_textual (v : JSValue.value) : bool :=
  match v with JStr _ | JArr _ | JObj _ => true | _ => false end.

(** What [==] comes to on an actual value that is not absent. *)
Definition loose_eq_cases (actual target : JSValue.value) : bool :=
  if is_absent target then false
  else if is_object actual && is_object target then false
  else if is_textual actual && is_textual target
       then (to_string actual =? to_string target)%string
       else JSNumber.eqb (to_number actual) (to_number target).

Lemma loose_eq_by_cases (actual target : JSValue.value) :
  is_absent actual = false ->
  loose_eq actual target = loose_eq_cases actual target.
Proof.
  intros Hactual.
  destruct actual as [| |[|]| | | |]; try discriminate Hactual;
    destruct target as [| |[|]| | | |]; reflexivity.
Qed.

(** C5, as stated, fails: the boolean [true] and the string ["true"] have
    the same string coercion and do not both parse as numbers, and yet
    [eq] is false on them; the strings ["1.0"] and ["1"] both parse as the
    number one, and yet [eq] is false on them. *)
Lemma compare_eq_is_not_described_eq :
  compare (JBool true) "eq" (JStr "true") = false
  /\ described_eq parseFloat (JBool true) (JStr "true") = true
  /\ described_eq to_number (JBool true) (JStr "true") = true
  /\ compare (JStr "1.0") "eq" (JStr "1") = false
  /\ described_eq parseFloat (JStr "1.0") (JStr "1") = true
  /\ described_eq to_number (JStr "1.0") (JStr "1") = true.
Proof. vm_compute. repeat split. Qed.

(** C5, amended. On an actual value that is not absent, [eq] is the loose
    equality of the language: false against an absent target and between
    two arrays or objects; equality of the string coercions when each side
    is a string, an array or an object; numeric equality of the number
    conversions as soon as one side is a number or a boolean. [ne] is its
    negation. *)
Theorem compare_eq_is_loose_equality (actual target : JSValue.value) :
  is_absent actual = false ->
  compare actual "eq" target = loose_eq_cases actual target
  /\ compare actual "ne" target = negb (compare actual "eq" target).
Proof.
  intros Hactual. unfold compare. rewrite Hactual. simpl.
  rewrite (loose_eq_by_cases actual target Hactual). split; reflexivity.
Qed.

Lemma compare_eq_is_loose_equality_witness :
  is_absent (JStr "600") = false
  /\ compare (JStr "600") "eq" (JNum (of_Z 600))
     = loose_eq_cases (JStr "600") (JNum (of_Z 600))
  /\ compare (JStr "600") "ne" (JNum (of_Z 600))
     = negb (compare (JStr "600") "eq" (JNum (of_Z 600))).
Proof.
  split; [reflexivity|].
  apply (compare_eq_is_loose_equality (JStr "600") (JNum (of_Z 600))).
  reflexivity.
Defined.

(** *** Running one rule *)

Definition rule_success (d : RuleData.t) : Result.t :=
  {| Result.success := true; Result.error := None; Result.data := Some d |}.

(** The flagged entry of a transaction under a rule without conditions. *)
Definition flagged_without_evidence (r : rule) (transaction : record) : Flagged.t :=
  {| Flagged.id := getProp (JObj transaction) "Id";
     Flagged.transaction_data := JObj transaction;
     Flagged.matched_conditions := [];
     Flagged.action := Rule.action r;
     Flagged.reason := Rule.reason r |}.

Lemma flag_loop_no_conditions (r : rule) (transactions : list record)
    (acc : list Flagged.t) :
  Rule.conditions r = Some [] ->
  flag_loop r transactions acc
  = Return (acc ++ map (flagged_without_evidence r) transactions)%list.
Proof.
  intros Hcs. revert acc.
  induction transactions as [|transaction rest IH]; intros acc; simpl.
  - rewrite app_nil_r. reflexivity.
  - unfold conditions_map. rewrite Hcs. simpl. rewrite IH.
    rewrite <- app_assoc. reflexivity.
Qed.

(** C7. Under a rule whose condition list is empty the fold is true on
    every transaction, and [executeRule] flags every transaction of the
    batch, in order. *)
Theorem empty_conditions_flag_everything
    (r : rule) (entity : string) (transactions : list record) :
  Rule.conditions r = Some [] ->
  (forall transaction : record,
      evaluateConditions transaction (Rule.conditions r) = true)
  /\ exists d : RuleData.t,
       executeRule r entity (Return transactions) = rule_success d
       /\ RuleData.flagged_transactions d
          = map (flagged_without_evidence r) transactions
       /\ Summary.flagged_count (RuleData.execution_summary d)
          = List.length transactions
       /\ Summary.total_checked (RuleData.execution_summary d)
          = List.length transactions.
Proof.
  intros Hcs. split.
  - intros transaction. rewrite Hcs. reflexivity.
  - unfold executeRule, executeRule_try. simpl.
    destruct transactions as [|transaction rest].
    + simpl. eexists. split; [reflexivity|]. simpl. auto.
    + cbn [List.length Nat.eqb].
      rewrite (flag_loop_no_conditions r (transaction :: rest) [] Hcs). simpl.
      eexists. split; [reflexivity|]. simpl.
      rewrite length_map. auto.
Qed.

Lemma empty_conditions_flag_everything_witness :
  let r := {| Rule.id := JStr "r-1"; Rule.rule_type := JStr "any";
              Rule.conditions := Some []; Rule.action := JStr "flag";
              Rule.reason := JStr "everything" |} in
  let batch : list record := [[("Id", JStr "1")]; [("Id", JStr "2")]] in
  Rule.conditions r = Some []
  /\ exists d : RuleData.t,
       executeRule r "Purchase" (Return batch) = rule_success d
       /\ RuleData.flagged_transactions d = map (flagged_without_evidence r) batch
       /\ Summary.flagged_count (RuleData.execution_summary d) = List.length batch
       /\ Summary.total_checked (RuleData.execution_summary d) = List.length batch.
Proof.
  intros r batch. split; [reflexivity|].
  apply (proj2 (empty_conditions_flag_everything r "Purchase" batch eq_refl)).
Defined.

(** On a batch that is not empty, a successful run reports the flag rate
    as [(flagged / total * 100).toFixed(2)] followed by a percent sign. *)
Lemma flag_rate_of_checked_batch
    (r : rule) (entity : string) (transactions : list record) (d : RuleData.t) :
  transactions <> [] ->
  executeRule r entity (Return transactions) = rule_success d ->
  Summary.total_checked (RuleData.execution_summary d) = List.length transactions
  /\ Summary.flagged_count (RuleData.execution_summary d)
     = List.length (RuleData.flagged_transactions d)
  /\ Summary.flag_rate (RuleData.execution_summary d)
     = Some (toFixed 2
               (mul (div (of_nat (List.length (RuleData.flagged_transactions d)))
                         (of_nat (List.length transactions)))
                    (of_Z 100)) ++ "%").
Proof.
  intros Hne. unfold executeRule, executeRule_try. simpl.
  destruct transactions as [|transaction rest]; [contradiction|].
  cbn [List.length Nat.eqb].
  destruct (flag_loop r (transaction :: rest) []) as [flagged|e]; simpl.
  - intros H. injection H as <-. simpl. auto.
  - discriminate.
Qed.

(** C4. On an empty batch [executeRule] succeeds with zero transactions
    checked, and its summary has no [flag_rate] at all: the early return
    leaves the property out, where the specification has ["0%"] (the
    value that the other return computes for a total of zero). One
    flagged of three checked is ["33.33%"]. *)
Theorem empty_batch_has_no_flag_rate :
  (forall (r : rule) (entity : string),
      exists d : RuleData.t,
        executeRule r entity (Return []) = rule_success d
        /\ Summary.total_checked (RuleData.execution_summary d) = 0%nat
        /\ Summary.flag_rate (RuleData.execution_summary d) = None
        /\ Summary.flag_rate (RuleData.execution_summary d) <> Some "0%")
  /\ flag_rate_of 1 3 = "33.33%"
  /\ flag_rate_of 0 0 = "0%".
Proof.
  split.
  - intros r entity. eexists. split; [reflexivity|]. simpl.
    repeat split. discriminate.
  - split; vm_compute; reflexivity.
Qed.

(** *** Faults while collecting the evidence *)

Lemma mapM_throws {A B : Type} (f : A -> outcome B) (xs : list A) (x : A) (e : exn) :
  In x xs -> f x = Throw e -> exists e', mapM f xs = Throw e'.
Proof.
  induction xs as [|y xs IH]; intros Hin Hx; [contradiction|].
  simpl. destruct Hin as [->|Hin].
  - rewrite Hx. simpl. eauto.
  - destruct (f y) as [b|e1]; simpl; [|eauto].
    destruct (IH Hin Hx) as [e' ->]. simpl. eauto.
Qed.

(** Without an array under [Line], the evidence of a [Line.] condition
    throws: [findIndex] is called on a value that has no such method. *)
Lemma matched_condition_line_fault (transaction : record) (c : condition) :
  isLineField (Condition.field c) = true ->
  isArray (getProp (JObj transaction) "Line") = false ->
  exists msg, matched_condition transaction c = Throw (TypeError msg).
Proof.
  intros Hline Harr. unfold matched_condition. rewrite Hline.
  destruct (getProp (JObj transaction) "Line"); try discriminate Harr;
    simpl; eauto.
Qed.

Lemma flag_loop_throws (r : rule) (cs : list condition) (c : condition)
    (transactions : list record) (transaction : record) (acc : list Flagged.t) :
  Rule.conditions r = Some cs ->
  In c cs ->
  isLineField (Condition.field c) = true ->
  In transaction transactions ->
  isArray (getProp (JObj transaction) "Line") = false ->
  evaluateConditions transaction (Some cs) = true ->
  exists e, flag_loop r transactions acc = Throw e.
Proof.
  intros Hcs Hc Hline Hin Harr Hflag. revert acc.
  induction transactions as [|t rest IH]; intros acc; [contradiction|].
  simpl. destruct Hin as [->|Hin].
  - rewrite Hcs, Hflag. unfold conditions_map. rewrite Hcs.
    destruct (matched_condition_line_fault transaction c Hline Harr) as [msg Hm].
    destruct (mapM_throws _ cs c _ Hc Hm) as [e' ->]. simpl. eauto.
  - destruct (evaluateConditions t (Rule.conditions r)); [|apply IH; assumption].
    destruct (conditions_map r (matched_condition t)) as [matched|e]; simpl;
      [apply IH; assumption|eauto].
Qed.

(** C9. When a rule has a [Line.] condition and some transaction of the
    batch passes the fold although its [Line] is not an array, the run of
    the rule fails as a whole: the evidence faults, the exception is
    caught, and no flagged transaction is reported. *)
Theorem line_evidence_fault_fails_the_rule
    (r : rule) (cs : list condition) (c : condition) (entity : string)
    (transactions : list record) (transaction : record) :
  Rule.conditions r = Some cs ->
  In c cs ->
  isLineField (Condition.field c) = true ->
  In transaction transactions ->
  isArray (getProp (JObj transaction) "Line") = false ->
  evaluateConditions transaction (Some cs) = true ->
  (exists msg, matched_condition transaction c = Throw (TypeError msg))
  /\ exists e,
       executeRule r entity (Return transactions) = rule_failure e
       /\ Result.success (executeRule r entity (Return transactions)) = false
       /\ Result.data (executeRule r entity (Return transactions)) = None.
Proof.
  intros Hcs Hc Hline Hin Harr Hflag. split.
  - apply matched_condition_line_fault; assumption.
  - destruct (flag_loop_throws r cs c transactions transaction [] Hcs Hc Hline
                Hin Harr Hflag) as [e He].
    exists e. unfold executeRule, executeRule_try. simpl.
    destruct transactions as [|t rest]; [contradiction|].
    cbn [List.length Nat.eqb]. rewrite He. simpl. auto.
Qed.

(** A rule flagging large totals or large lines, and a record without
    lines whose total is large. *)
Definition large_total : condition :=
  {| Condition.field := "TotalAmt"; Condition.operator := "gt";
     Condition.value := JNum (of_Z 500); Condition.logical_operator := None |}.

Definition large_line : condition :=
  {| Condition.field := "Line.Amount"; Condition.operator := "gt";
     Condition.value := JNum (of_Z 100); Condition.logical_operator := Some "OR" |}.

Definition large_rule : rule :=
  {| Rule.id := JStr "r-9"; Rule.rule_type := JStr "large";
     Rule.conditions := Some [large_total; large_line];
     Rule.action := JStr "flag"; Rule.reason := JStr "large amount" |}.

Definition no_lines : record := [("Id", JStr "1"); ("TotalAmt", JStr "600")].

Lemma line_evidence_fault_fails_the_rule_witness :
  Rule.conditions large_rule = Some [large_total; large_line]
  /\ In large_line [large_total; large_line]
  /\ isLineField (Condition.field large_line) = true
  /\ In no_lines [no_lines]
  /\ isArray (getProp (JObj no_lines) "Line") = false
  /\ evaluateConditions no_lines (Some [large_total; large_line]) = true
  /\ (exists msg, matched_condition no_lines large_line = Throw (TypeError msg))
  /\ exists e,
       executeRule large_rule "Purchase" (Return [no_lines]) = rule_failure e
       /\ Result.success (executeRule large_rule "Purchase" (Return [no_lines])) = false
       /\ Result.data (executeRule large_rule "Purchase" (Return [no_lines])) = None.
Proof.
  split; [reflexivity|].
  split; [right; left; reflexivity|].
  split; [reflexivity|].
  split; [left; reflexivity|].
  split; [reflexivity|].
  split; [vm_compute; reflexivity|].
  apply (line_evidence_fault_fails_the_rule large_rule [large_total; large_line]
           large_line "Purchase" [no_lines] no_lines).
  - reflexivity.
  - right; left; reflexivity.
  - reflexivity.
  - left; reflexivity.
  - reflexivity.
  - vm_compute; reflexivity.
Defined.

(** *** Running a batch of rules *)

(** The rules of a batch, each with the number of its fetch. *)
Definition numbered {A : Type} (from : nat) (xs : list A) : list (nat * A) :=
  combine (seq from (List.length xs)) xs.

Definition result_of (entity : string) (fetch : nat -> outcome (list record))
    (kr : nat * rule) : Result.t :=
  executeRule (snd kr) entity (fetch (fst kr)).

Lemma fold_push_result (entity : string) (fetch : nat -> outcome (list record))
    (rules : list rule) (acc : list Result.t) :
  fold_left (push_result entity fetch) rules acc
  = (acc ++ map (result_of entity fetch) (numbered (List.length acc) rules))%list.
Proof.
  revert acc. induction rules as [|r rules IH]; intros acc; simpl.
  - rewrite app_nil_r. reflexivity.
  - rewrite IH. unfold push_result, numbered. rewrite length_app. simpl.
    replace (List.length acc + 1)%nat with (S (List.length acc)) by lia.
    rewrite <- app_assoc. reflexivity.
Qed.

Lemma nth_error_numbered {A : Type} (xs : list A) (from i : nat) (x : A) :
  nth_error xs i = Some x ->
  nth_error (numbered from xs) i = Some ((from + i)%nat, x).
Proof.
  unfold numbered. revert from i.
  induction xs as [|y xs IH]; intros from i H.
  - destruct i; discriminate H.
  - destruct i as [|i]; simpl in *.
    + injection H as ->. rewrite Nat.add_0_r. reflexivity.
    + replace (from + S i)%nat with (S from + i)%nat by lia.
      apply IH. exact H.
Qed.

Lemma length_numbered {A : Type} (xs : list A) (from : nat) :
  List.length (numbered from xs) = List.length xs.
Proof.
  unfold numbered. rewrite length_combine, length_seq. apply Nat.min_id.
Qed.

Definition total_rule : rule :=
  {| Rule.id := JStr "r-1"; Rule.rule_type := JStr "large";
     Rule.conditions := Some [large_total];
     Rule.action := JStr "review"; Rule.reason := JStr "large total" |}.

(** C3. [executeRule] always comes back with a result: an exception of
    its [try] block becomes the failure result made of [success: false],
    the message and [data: null]. [executeMultipleRules] reports one entry
    per rule, in rule order, and the entry of a rule is the result of
    [executeRule] on that rule alone, so a failing rule leaves the entries
    of the others as they are; of three rules the second of which faults,
    three entries come back and only the second is a failure. *)
Theorem executeRule_catches_and_batch_isolates :
  (forall (r : rule) (entity : string) (fetched : outcome (list record)),
      match executeRule_try r entity fetched with
      | Throw e =>
          executeRule r entity fetched
          = {| Result.success := false;
               Result.error := Some ("Failed to execute rule: " ++ message e);
               Result.data := None |}
      | Return d => executeRule r entity fetched = rule_success d
      end)
  /\ (forall (rules : list rule) (entity : string)
             (fetch : nat -> outcome (list record)),
         exists bd : BatchData.t,
           executeMultipleRules rules entity fetch
           = {| BatchResult.success := true; BatchResult.error := None;
                BatchResult.data := Some bd |}
           /\ BatchData.individual_results bd
              = map (result_of entity fetch) (numbered 0 rules)
           /\ List.length (BatchData.individual_results bd) = List.length rules
           /\ forall (i : nat) (r : rule),
                nth_error rules i = Some r ->
                nth_error (BatchData.individual_results bd) i
                = Some (executeRule r entity (fetch i)))
  /\ (let fetch := fun _ : nat => Return [no_lines] in
      exists bd : BatchData.t,
        BatchResult.data
          (executeMultipleRules [total_rule; large_rule; total_rule] "Purchase" fetch)
        = Some bd
        /\ BatchData.individual_results bd
           = [executeRule total_rule "Purchase" (Return [no_lines]);
              rule_failure
                (TypeError "Cannot read properties of undefined (reading 'findIndex')");
              executeRule total_rule "Purchase" (Return [no_lines])]
        /\ map Result.success (BatchData.individual_results bd)
           = [true; false; true]
        /\ BatchSummary.failed_executions (BatchData.summary bd) = 1%nat).
Proof.
  split; [|split].
  - intros r entity fetched. unfold executeRule.
    destruct (executeRule_try r entity fetched); reflexivity.
  - intros rules entity fetch. unfold executeMultipleRules.
    rewrite fold_push_result. simpl.
    eexists. split; [reflexivity|]. simpl.
    split; [reflexivity|]. split.
    + rewrite length_map. apply length_numbered.
    + intros i r Hi.
      rewrite nth_error_map, (nth_error_numbered rules 0 i r Hi). reflexivity.
  - vm_compute. eexists. split; [reflexivity|]. simpl.
    split; [reflexivity|]. split; reflexivity.
Qed.

Lemma executeRule_catches_and_batch_isolates_witness :
  let rules := [total_rule; large_rule; total_rule] in
  let fetch := fun _ : nat => Return [no_lines] in
  nth_error rules 1 = Some large_rule
  /\ exists bd : BatchData.t,
       executeMultipleRules rules "Purchase" fetch
       = {| BatchResult.success := true; BatchResult.error := None;
            BatchResult.data := Some bd |}
       /\ nth_error (BatchData.individual_results bd) 1
          = Some (executeRule large_rule "Purchase" (fetch 1%nat)).
Proof.
  intros rules fetch. split; [reflexivity|].
  destruct (proj1 (proj2 executeRule_catches_and_batch_isolates)
              rules "Purchase" fetch) as [bd [Hrun [_ [_ Hnth]]]].
  exists bd. split; [exact Hrun|].
  apply (Hnth 1%nat large_rule). reflexivity.
Defined.

(** *** The evidence of a line condition *)


Lemma split_on_cons (sep : ascii) (s : string) :
  exists seg more, Text.split_on sep s = seg :: more.
Proof.
  destruct s as [|c s]; simpl; [eauto|].
  destruct (Ascii.eqb c sep); [eauto|].
  destruct (Text.split_on sep s); eauto.
Qed.

Lemma getNestedValue_under_Line (transaction : record) (subPath : string) :
  getNestedValue (JObj transaction) ("Line." ++ subPath)
  = getNestedValue (getProp (JObj transaction) "Line") subPath.
Proof.
  unfold getNestedValue.
  replace (Text.split_on "." ("Line." ++ subPath))
    with ("Line" :: Text.split_on "." subPath).
  - reflexivity.
  - simpl. destruct (split_on_cons "." subPath) as [seg [more ->]]. reflexivity.
Qed.







Lemma findIndex_from_found {A : Type} (p : A -> bool) (xs : list A) (from : Z) (d : A) :
  0 <= from ->
  findIndex_from p xs from <> -1 ->
  from <= findIndex_from p xs from
  /\ p (nth (Z.to_nat (findIndex_from p xs from - from)) xs d) = true.
Proof.
  revert from. induction xs as [|x xs IH]; intros from Hfrom Hfound; simpl in *.
  - contradiction.
  - destruct (p x) eqn:Hx.
    + rewrite Z.sub_diag. simpl. split; [lia|exact Hx].
    + destruct (IH (from + 1) ltac:(lia) Hfound) as [Hle Hp].
      split; [lia|].
      replace (Z.to_nat (findIndex_from p xs (from + 1) - from))
        with (S (Z.to_nat (findIndex_from p xs (from + 1) - (from + 1))))
        by lia.
      exact Hp.
Qed.

Lemma findIndex_found {A : Type} (p : A -> bool) (xs : list A) (d : A) :
  findIndex p xs <> -1 ->
  0 <= findIndex p xs /\ p (nth (Z.to_nat (findIndex p xs)) xs d) = true.
Proof.
  intros Hfound. unfold findIndex in *.
  destruct (findIndex_from_found p xs 0 d ltac:(lia) Hfound) as [Hle Hp].
  rewrite Z.sub_0_r in Hp. split; assumption.
Qed.

(** What [getNestedValue] and [findIndex] leave in the evidence of a line
    condition, once [Line] is known to be an array. *)
Definition line_evidence (c : condition) (subPath : string)
    (items : list JSValue.value) : Matched.t :=
  let actualValue := getNestedValue (JArr items) subPath in
  let i := findIndex (line_matches subPath c) items in
  {| Matched.field := Condition.field c;
     Matched.operator := Condition.operator c;
     Matched.value := Condition.value c;
     Matched.actual_value := actualValue;
     Matched.flagged_field_data :=
       if i =? -1 then NoFieldData
       else LineFieldData i (nth (Z.to_nat i) items JUndefined)
              (Condition.field c) actualValue |}.

Lemma matched_condition_line (transaction : record) (c : condition)
    (subPath : string) (m : Matched.t) :
  Condition.field c = "Line." ++ subPath ->
  matched_condition transaction c = Return m ->
  exists items,
    getProp (JObj transaction) "Line" = JArr items
    /\ m = line_evidence c subPath items.
Proof.
  intros Hfield. unfold matched_condition.
  rewrite Hfield, isLineField_prefixed, drop_Line_prefix, getNestedValue_under_Line.
  destruct (getProp (JObj transaction) "Line") as [| | | | |items|];
    simpl; try discriminate.
  intros H. exists items. split; [reflexivity|].
  unfold line_evidence. rewrite Hfield.
  destruct (findIndex (line_matches subPath c) items =? -1) eqn:Hi; simpl in H.
  - injection H as <-. reflexivity.
  - injection H as <-.
    destruct (findIndex_found (line_matches subPath c) items JUndefined) as [Hpos _].
    { apply Z.eqb_neq. exact Hi. }
    apply Z.ltb_ge in Hpos. rewrite Hpos. reflexivity.
Qed.


(** Every entry that the loop adds belongs to a transaction of the batch,
    and its evidence is what the callback returned on the conditions. *)
Lemma flag_loop_entries (r : rule) (transactions : list record)
    (acc out : list Flagged.t) (f : Flagged.t) :
  flag_loop r transactions acc = Return out ->
  In f out ->
  In f acc \/
  exists transaction,
    In transaction transactions
    /\ Flagged.transaction_data f = JObj transaction
    /\ conditions_map r (matched_condition transaction)
       = Return (Flagged.matched_conditions f).
Proof.
  revert acc. induction transactions as [|t rest IH]; intros acc H Hf; simpl in H.
  - injection H as <-. left. exact Hf.
  - destruct (evaluateConditions t (Rule.conditions r)).
    + destruct (conditions_map r (matched_condition t)) as [matched|e] eqn:Hm;
        simpl in H; [|discriminate].
      destruct (IH _ H Hf) as [Hacc|[t' [Hin [Hdata Hev]]]].
      * apply in_app_or in Hacc. destruct Hacc as [Hacc|[<-|[]]].
        -- left. exact Hacc.
        -- right. exists t. simpl. split; [left; reflexivity|]. split; [reflexivity|exact Hm].
      * right. exists t'. split; [right; exact Hin|]. split; assumption.
    + destruct (IH _ H Hf) as [Hacc|[t' [Hin [Hdata Hev]]]].
      * left. exact Hacc.
      * right. exists t'. split; [right; exact Hin|]. split; assumption.
Qed.







(** A rule on the amounts of the line items, a record with two line items,
    and what a run of the rule on that record reports. *)
Definition line_rule : rule :=
  {| Rule.id := JStr "r-2"; Rule.rule_type := JStr "large";
     Rule.conditions := Some [large_line];
     Rule.action := JStr "flag"; Rule.reason := JStr "large line" |}.

Definition two_items : list JSValue.value :=
  [JObj [("Amount", JNum (of_Z 150))]; JObj [("Amount", JNum (of_Z 50))]].

Definition two_lines : record := [("Id", JStr "3"); ("Line", JArr two_items)].

Definition amount_evidence : Matched.t :=
  {| Matched.field := "Line.Amount"; Matched.operator := "gt";
     Matched.value := JNum (of_Z 100); Matched.actual_value := JUndefined;
     Matched.flagged_field_data :=
       LineFieldData 0 (JObj [("Amount", JNum (of_Z 150))]) "Line.Amount" JUndefined |}.

Definition two_lines_flagged : Flagged.t :=
  {| Flagged.id := JStr "3"; Flagged.transaction_data := JObj two_lines;
     Flagged.matched_conditions := [amount_evidence];
     Flagged.action := JStr "flag"; Flagged.reason := JStr "large line" |}.

Definition two_lines_data : RuleData.t :=
  {| RuleData.rule_id := JStr "r-2"; RuleData.rule_type := JStr "large";
     RuleData.entity := "Purchase"; RuleData.total_transactions := 1;
     RuleData.flagged_transactions := [two_lines_flagged];
     RuleData.execution_summary :=
       {| Summary.total_checked := 1; Summary.flagged_count := 1;
          Summary.flag_rate := Some "100.00%" |} |}.


(** ** Further properties of the engine *)

(** *** Paths *)

Lemma split_on_app (sep : ascii) (p q : string) :
  Text.split_on sep (p ++ String sep q)
  = (Text.split_on sep p ++ Text.split_on sep q)%list.
Proof.
  induction p as [|c p IH]; simpl.
  - rewrite Ascii.eqb_refl. reflexivity.
  - destruct (Ascii.eqb c sep).
    + rewrite IH. reflexivity.
    + rewrite IH. destruct (split_on_cons sep p) as [seg [more ->]]. reflexivity.
Qed.

(** X1. Resolving a dotted path is resolving its first part and then the
    rest from what was found, wherever the path is cut at a dot, and also
    when the first part finds nothing. *)
Theorem getNestedValue_compose (obj : JSValue.value) (p q : string) :
  getNestedValue obj (p ++ "." ++ q) = getNestedValue (getNestedValue obj p) q.
Proof.
  unfold getNestedValue.
  change (p ++ "." ++ q) with (p ++ String "." q).
  rewrite split_on_app, fold_left_app. reflexivity.
Qed.

(** *** Ordering and membership *)

Lemma SFltb_asym (x y : number) :
  JSNumber.ltb x y = true -> JSNumber.ltb y x = false.
Proof.
  unfold JSNumber.ltb, SFltb, SFcompare.
  destruct x as [sx|sx| |sx mx ex], y as [sy|sy| |sy my ey];
    try destruct sx; try destruct sy; try discriminate; try reflexivity.
  - rewrite (Z.compare_antisym ey ex).
    destruct (ey ?= ex) eqn:He; simpl; try discriminate; try reflexivity.
    rewrite !Pos.compare_cont_spec. simpl.
    rewrite (Pos.compare_antisym my mx).
    destruct (my ?= mx)%positive; simpl; try discriminate; reflexivity.
  - rewrite (Z.compare_antisym ey ex).
    destruct (ey ?= ex) eqn:He; simpl; try discriminate; try reflexivity.
    rewrite !Pos.compare_cont_spec. simpl.
    rewrite (Pos.compare_antisym my mx).
    destruct (my ?= mx)%positive; simpl; try discriminate; reflexivity.
Qed.

Lemma SFltb_nan (x y : number) :
  is_nan x = true \/ is_nan y = true -> JSNumber.ltb x y = false.
Proof.
  intros [H|H]; destruct x, y; try discriminate H; reflexivity.
Qed.

(** X2. [gt] and [lt] never both hold of the same two values, and both
    are false as soon as one of the two does not parse as a number. *)
Theorem gt_lt_exclusive (actual target : JSValue.value) :
  (compare actual "gt" target = true -> compare actual "lt" target = false)
  /\ (is_nan (parseFloat actual) = true \/ is_nan (parseFloat target) = true ->
      compare actual "gt" target = false /\ compare actual "lt" target = false).
Proof.
  unfold compare. destruct (is_absent actual); simpl.
  - split; [discriminate|]. intros _. split; reflexivity.
  - split.
    + apply SFltb_asym.
    + intros H. split; apply SFltb_nan; tauto.
Qed.

Lemma gt_lt_exclusive_witness :
  compare (JStr "600.50") "gt" (JNum (of_Z 500)) = true
  /\ compare (JStr "600.50") "lt" (JNum (of_Z 500)) = false
  /\ is_nan (parseFloat (JStr "n/a")) = true
  /\ compare (JStr "n/a") "gt" (JNum (of_Z 500)) = false
  /\ compare (JStr "n/a") "lt" (JNum (of_Z 500)) = false.
Proof.
  assert (Hgt : compare (JStr "600.50") "gt" (JNum (of_Z 500)) = true)
    by (vm_compute; reflexivity).
  assert (Hnan : is_nan (parseFloat (JStr "n/a")) = true)
    by (vm_compute; reflexivity).
  split; [exact Hgt|].
  split; [exact (proj1 (gt_lt_exclusive _ _) Hgt)|].
  split; [exact Hnan|].
  exact (proj2 (gt_lt_exclusive (JStr "n/a") (JNum (of_Z 500))) (or_introl Hnan)).
Defined.

Definition is_string (v : JSValue.value) : bool :=
  match v with JStr _ => true | _ => false end.

Definition is_number (v : JSValue.value) : bool :=
  match v with JNum _ => true | _ => false end.

(** X3. Membership does not coerce: a number is never [in] a list of
    strings and a string is never [in] a list of numbers, whatever they
    spell, so that [not_in] holds of them. *)
Theorem in_does_not_coerce (actual : JSValue.value) (items : list JSValue.value) :
  (is_number actual = true /\ forallb is_string items = true)
  \/ (is_string actual = true /\ forallb is_number items = true) ->
  compare actual "in" (JArr items) = false
  /\ compare actual "not_in" (JArr items) = true.
Proof.
  intros H.
  assert (Hmiss : array_includes items actual = false).
  { unfold array_includes.
    induction items as [|y items IH]; [reflexivity|]. simpl.
    destruct H as [[Ha Hi]|[Ha Hi]]; simpl in Hi;
      apply andb_true_iff in Hi; destruct Hi as [Hy Hi];
      destruct actual; try discriminate Ha;
      destruct y; try discriminate Hy; simpl; apply IH; auto. }
  destruct H as [[Ha _]|[Ha _]]; destruct actual; try discriminate Ha;
    unfold compare; simpl; rewrite Hmiss; split; reflexivity.
Qed.

Lemma in_does_not_coerce_witness :
  (is_number (JNum (of_Z 5)) = true
   /\ forallb is_string [JStr "4"; JStr "5"] = true)
  /\ compare (JNum (of_Z 5)) "in" (JArr [JStr "4"; JStr "5"]) = false
  /\ compare (JNum (of_Z 5)) "not_in" (JArr [JStr "4"; JStr "5"]) = true
  /\ compare (JNum (of_Z 5)) "eq" (JStr "5") = true.
Proof.
  split; [split; reflexivity|].
  split; [|split].
  - apply (in_does_not_coerce (JNum (of_Z 5)) [JStr "4"; JStr "5"]).
    left. split; reflexivity.
  - apply (in_does_not_coerce (JNum (of_Z 5)) [JStr "4"; JStr "5"]).
    left. split; reflexivity.
  - vm_compute. reflexivity.
Defined.

Lemma includes_empty (s : string) : Text.includes s "" = true.
Proof. destruct s; reflexivity. Qed.

(** X4. An empty needle is contained in everything: on a present value,
    [contains] with the empty string is true and [not_contains] false. *)
Theorem contains_empty_needle (actual : JSValue.value) :
  is_absent actual = false ->
  compare actual "contains" (JStr "") = true
  /\ compare actual "not_contains" (JStr "") = false.
Proof.
  intros H. unfold compare. rewrite H. simpl.
  rewrite includes_empty. split; reflexivity.
Qed.

Lemma contains_empty_needle_witness :
  is_absent (JNum (of_Z 42)) = false
  /\ compare (JNum (of_Z 42)) "contains" (JStr "") = true
  /\ compare (JNum (of_Z 42)) "not_contains" (JStr "") = false.
Proof.
  split; [reflexivity|].
  apply (contains_empty_needle (JNum (of_Z 42))). reflexivity.
Defined.

(** *** Shapes of the condition fold *)

Definition fold_step (transaction : record) (acc : bool) (ci : condition) : bool :=
  combine_with (logical_of ci) acc (evaluateCondition transaction ci).

Lemma evaluateConditions_cons (transaction : record) (c0 : condition)
    (rest : list condition) :
  evaluateConditions transaction (Some (c0 :: rest))
  = fold_left (fold_step transaction) rest (evaluateCondition transaction c0).
Proof.
  unfold evaluateConditions.
  rewrite evaluateConditions_logged_cons, loop_step_fst. reflexivity.
Qed.

Definition is_and (c : condition) : bool :=
  match logical_of c with AND => true | OR => false end.

Definition is_or (c : condition) : bool :=
  match logical_of c with OR => true | AND => false end.

Lemma fold_all_and (transaction : record) (rest : list condition) (acc : bool) :
  forallb is_and rest = true ->
  fold_left (fold_step transaction) rest acc
  = acc && forallb (evaluateCondition transaction) rest.
Proof.
  revert acc. induction rest as [|c rest IH]; intros acc H; simpl.
  - rewrite andb_true_r. reflexivity.
  - simpl in H. apply andb_true_iff in H. destruct H as [Hc H].
    rewrite (IH _ H). unfold fold_step, is_and in *.
    destruct (logical_of c); [|discriminate]. simpl.
    rewrite andb_assoc. reflexivity.
Qed.

Lemma fold_all_or (transaction : record) (rest : list condition) (acc : bool) :
  forallb is_or rest = true ->
  fold_left (fold_step transaction) rest acc
  = acc || existsb (evaluateCondition transaction) rest.
Proof.
  revert acc. induction rest as [|c rest IH]; intros acc H; simpl.
  - rewrite orb_false_r. reflexivity.
  - simpl in H. apply andb_true_iff in H. destruct H as [Hc H].
    rewrite (IH _ H). unfold fold_step, is_or in *.
    destruct (logical_of c); [discriminate|]. simpl.
    rewrite orb_assoc. reflexivity.
Qed.

(** X5. When every condition after the first is joined by [AND] (or by
    nothing), the rule holds exactly when all its conditions hold; when
    every one is joined by [OR], exactly when some condition holds. *)
Theorem uniform_operators (transaction : record) (c0 : condition)
    (rest : list condition) :
  (forallb is_and rest = true ->
   evaluateConditions transaction (Some (c0 :: rest))
   = forallb (evaluateCondition transaction) (c0 :: rest))
  /\ (forallb is_or rest = true ->
      evaluateConditions transaction (Some (c0 :: rest))
      = existsb (evaluateCondition transaction) (c0 :: rest)).
Proof.
  rewrite evaluateConditions_cons. split; intros H.
  - rewrite (fold_all_and _ _ _ H). reflexivity.
  - rewrite (fold_all_or _ _ _ H). reflexivity.
Qed.

Lemma uniform_operators_witness :
  let transaction : record := [("A", JStr "yes"); ("B", JStr "no")] in
  let a := says_yes "A" None in
  let b := says_yes "B" (Some "AND") in
  let c := says_yes "C" None in
  forallb is_and [b; c] = true
  /\ evaluateConditions transaction (Some [a; b; c])
     = forallb (evaluateCondition transaction) [a; b; c].
Proof.
  intros transaction a b c. split; [reflexivity|].
  apply (proj1 (uniform_operators transaction a [b; c])). reflexivity.
Defined.

(** X6. Adding a condition at the end of a rule combines the outcome of
    the rule so far with the outcome of the new condition: a last
    condition joined by [OR] that holds makes the rule hold, and a last
    condition joined by [AND] that fails makes it fail, whatever comes
    before. *)
Theorem last_condition_decides (transaction : record) (c0 : condition)
    (rest : list condition) (last_c : condition) :
  evaluateConditions transaction (Some (c0 :: rest ++ [last_c])%list)
  = combine_with (logical_of last_c)
      (evaluateConditions transaction (Some (c0 :: rest)))
      (evaluateCondition transaction last_c)
  /\ (logical_of last_c = OR -> evaluateCondition transaction last_c = true ->
      evaluateConditions transaction (Some (c0 :: rest ++ [last_c])%list) = true)
  /\ (logical_of last_c = AND -> evaluateCondition transaction last_c = false ->
      evaluateConditions transaction (Some (c0 :: rest ++ [last_c])%list) = false).
Proof.
  assert (Heq : evaluateConditions transaction (Some (c0 :: rest ++ [last_c])%list)
                = combine_with (logical_of last_c)
                    (evaluateConditions transaction (Some (c0 :: rest)))
                    (evaluateCondition transaction last_c)).
  { rewrite !evaluateConditions_cons, fold_left_app. reflexivity. }
  split; [exact Heq|]. rewrite Heq. split; intros -> ->; simpl.
  - apply orb_true_r.
  - apply andb_false_r.
Qed.

Lemma last_condition_decides_witness :
  let transaction : record := [("C", JStr "yes")] in
  let a := says_yes "A" None in
  let b := says_yes "B" (Some "AND") in
  let c := says_yes "C" (Some "OR") in
  logical_of c = OR
  /\ evaluateCondition transaction c = true
  /\ evaluateConditions transaction (Some (a :: [b] ++ [c])%list) = true.
Proof.
  intros transaction a b c.
  assert (Hop : logical_of c = OR) by reflexivity.
  assert (Hc : evaluateCondition transaction c = true) by (vm_compute; reflexivity).
  split; [exact Hop|]. split; [exact Hc|].
  exact (proj1 (proj2 (last_condition_decides transaction a [b] c)) Hop Hc).
Defined.

(** *** What a successful run reports *)

Definition passes (r : rule) (transaction : record) : bool :=
  evaluateConditions transaction (Rule.conditions r).

Lemma flag_loop_data (r : rule) (transactions : list record)
    (acc out : list Flagged.t) :
  flag_loop r transactions acc = Return out ->
  map Flagged.transaction_data out
  = (map Flagged.transaction_data acc
     ++ map JObj (filter (passes r) transactions))%list.
Proof.
  revert acc. induction transactions as [|t rest IH]; intros acc H; simpl in *.
  - injection H as <-. rewrite app_nil_r. reflexivity.
  - unfold passes at 1. destruct (evaluateConditions t (Rule.conditions r)).
    + destruct (conditions_map r (matched_condition t)) as [matched|e];
        simpl in H; [|discriminate].
      rewrite (IH _ H), map_app. simpl. rewrite <- app_assoc. reflexivity.
    + apply IH. exact H.
Qed.

Lemma executeRule_success_inv (r : rule) (entity : string)
    (transactions : list record) (d : RuleData.t) :
  executeRule r entity (Return transactions) = rule_success d ->
  flag_loop r transactions [] = Return (RuleData.flagged_transactions d)
  /\ RuleData.total_transactions d = List.length transactions
  /\ Summary.total_checked (RuleData.execution_summary d) = List.length transactions
  /\ Summary.flagged_count (RuleData.execution_summary d)
     = List.length (RuleData.flagged_transactions d).
Proof.
  unfold executeRule, executeRule_try. simpl.
  destruct transactions as [|t rest].
  - simpl. intros H. injection H as <-. simpl. auto.
  - cbn [List.length Nat.eqb].
    destruct (flag_loop r (t :: rest) []) as [flagged|e]; simpl.
    + intros H. injection H as <-. simpl. auto.
    + discriminate.
Qed.

(** X7. A successful run flags exactly the transactions of the batch that
    pass the conditions of the rule, once each and in batch order; the
    flagged count is their number and never exceeds the number checked,
    which is the size of the batch. *)
Theorem flagged_are_the_passing (r : rule) (entity : string)
    (transactions : list record) (d : RuleData.t) :
  executeRule r entity (Return transactions) = rule_success d ->
  map Flagged.transaction_data (RuleData.flagged_transactions d)
  = map JObj (filter (passes r) transactions)
  /\ Summary.flagged_count (RuleData.execution_summary d)
     = List.length (filter (passes r) transactions)
  /\ Summary.total_checked (RuleData.execution_summary d) = List.length transactions
  /\ (Summary.flagged_count (RuleData.execution_summary d)
      <= Summary.total_checked (RuleData.execution_summary d))%nat.
Proof.
  intros Hrun.
  destruct (executeRule_success_inv r entity transactions d Hrun)
    as [Hloop [_ [Hchecked Hcount]]].
  pose proof (flag_loop_data r transactions [] _ Hloop) as Hdata. simpl in Hdata.
  assert (Hlen : List.length (RuleData.flagged_transactions d)
                 = List.length (filter (passes r) transactions)).
  { rewrite <- (length_map Flagged.transaction_data), Hdata, length_map.
    reflexivity. }
  split; [exact Hdata|]. split; [congruence|]. split; [exact Hchecked|].
  rewrite Hcount, Hlen, Hchecked. apply filter_length_le.
Qed.

Lemma flagged_are_the_passing_witness :
  executeRule line_rule "Purchase" (Return [two_lines]) = rule_success two_lines_data
  /\ map Flagged.transaction_data (RuleData.flagged_transactions two_lines_data)
     = map JObj (filter (passes line_rule) [two_lines])
  /\ Summary.flagged_count (RuleData.execution_summary two_lines_data)
     = List.length (filter (passes line_rule) [two_lines]).
Proof.
  assert (Hrun : executeRule line_rule "Purchase" (Return [two_lines])
                 = rule_success two_lines_data) by (vm_compute; reflexivity).
  split; [exact Hrun|].
  destruct (flagged_are_the_passing line_rule "Purchase" [two_lines]
              two_lines_data Hrun) as [Hdata [Hcount _]].
  split; assumption.
Defined.

Lemma matched_condition_copies (transaction : record) (c : condition) (m : Matched.t) :
  matched_condition transaction c = Return m ->
  Matched.field m = Condition.field c
  /\ Matched.operator m = Condition.operator c
  /\ Matched.value m = Condition.value c
  /\ Matched.actual_value m = getNestedValue (JObj transaction) (Condition.field c).
Proof.
  unfold matched_condition.
  destruct (if isLineField (Condition.field c) then _ else _); simpl;
    [|discriminate].
  intros H. injection H as <-. simpl. auto.
Qed.

Lemma mapM_Forall2 {A B : Type} (g : A -> outcome B) (xs : list A) (ys : list B) :
  mapM g xs = Return ys -> Forall2 (fun x y => g x = Return y) xs ys.
Proof.
  revert ys. induction xs as [|x xs IH]; intros ys H; simpl in H.
  - injection H as <-. constructor.
  - destruct (g x) as [b|e] eqn:Hx; simpl in H; [|discriminate].
    destruct (mapM g xs) as [bs|e]; simpl in H; [|discriminate].
    injection H as <-. constructor; [exact Hx|apply IH; reflexivity].
Qed.

(** X8. In a successful run every flagged transaction carries one entry
    of evidence per condition of the rule, in the order of the
    conditions and also for the conditions that do not hold; each entry
    repeats the field, the operator and the value of its condition. *)
Theorem evidence_for_every_condition (r : rule) (cs : list condition)
    (entity : string) (transactions : list record) (d : RuleData.t) (f : Flagged.t) :
  Rule.conditions r = Some cs ->
  executeRule r entity (Return transactions) = rule_success d ->
  In f (RuleData.flagged_transactions d) ->
  List.length (Flagged.matched_conditions f) = List.length cs
  /\ map Matched.field (Flagged.matched_conditions f) = map Condition.field cs
  /\ map Matched.operator (Flagged.matched_conditions f) = map Condition.operator cs
  /\ map Matched.value (Flagged.matched_conditions f) = map Condition.value cs.
Proof.
  intros Hcs Hrun Hf.
  destruct (executeRule_success_inv r entity transactions d Hrun) as [Hloop _].
  destruct (flag_loop_entries r transactions [] _ f Hloop Hf)
    as [[]|[transaction [_ [_ Hev]]]].
  unfold conditions_map in Hev. rewrite Hcs in Hev.
  apply mapM_Forall2 in Hev. clear Hcs Hrun Hf Hloop.
  induction Hev as [|c m cs' ms Hm _ IH]; simpl; [auto|].
  destruct (matched_condition_copies transaction c m Hm) as [Hf1 [Hf2 [Hf3 _]]].
  destruct IH as [IH0 [IH1 [IH2 IH3]]].
  rewrite IH0, IH1, IH2, IH3, Hf1, Hf2, Hf3. auto.
Qed.

(** A rule with a condition that fails on the record [no_lines] and one
    that holds: the record is flagged through the second. *)
Definition small_total : condition :=
  {| Condition.field := "TotalAmt"; Condition.operator := "lt";
     Condition.value := JNum (of_Z 10); Condition.logical_operator := None |}.

Definition known_id : condition :=
  {| Condition.field := "Id"; Condition.operator := "eq";
     Condition.value := JStr "1"; Condition.logical_operator := Some "OR" |}.

Definition either_rule : rule :=
  {| Rule.id := JStr "r-3"; Rule.rule_type := JStr "either";
     Rule.conditions := Some [small_total; known_id];
     Rule.action := JStr "review"; Rule.reason := JStr "small or known" |}.

Definition either_flagged : Flagged.t :=
  {| Flagged.id := JStr "1"; Flagged.transaction_data := JObj no_lines;
     Flagged.matched_conditions :=
       [{| Matched.field := "TotalAmt"; Matched.operator := "lt";
           Matched.value := JNum (of_Z 10); Matched.actual_value := JStr "600";
           Matched.flagged_field_data :=
             TopFieldData "TotalAmt" (JStr "600") (JObj no_lines) |};
        {| Matched.field := "Id"; Matched.operator := "eq";
           Matched.value := JStr "1"; Matched.actual_value := JStr "1";
           Matched.flagged_field_data :=
             TopFieldData "Id" (JStr "1") (JObj no_lines) |}];
     Flagged.action := JStr "review"; Flagged.reason := JStr "small or known" |}.

Definition either_data : RuleData.t :=
  {| RuleData.rule_id := JStr "r-3"; RuleData.rule_type := JStr "either";
     RuleData.entity := "Purchase"; RuleData.total_transactions := 1;
     RuleData.flagged_transactions := [either_flagged];
     RuleData.execution_summary :=
       {| Summary.total_checked := 1; Summary.flagged_count := 1;
          Summary.flag_rate := Some "100.00%" |} |}.

Lemma evidence_for_every_condition_witness :
  Rule.conditions either_rule = Some [small_total; known_id]
  /\ executeRule either_rule "Purchase" (Return [no_lines]) = rule_success either_data
  /\ In either_flagged (RuleData.flagged_transactions either_data)
  /\ evaluateCondition no_lines small_total = false
  /\ map Matched.field (Flagged.matched_conditions either_flagged)
     = map Condition.field [small_total; known_id].
Proof.
  assert (Hrun : executeRule either_rule "Purchase" (Return [no_lines])
                 = rule_success either_data) by (vm_compute; reflexivity).
  assert (Hf : In either_flagged (RuleData.flagged_transactions either_data))
    by (left; reflexivity).
  split; [reflexivity|]. split; [exact Hrun|]. split; [exact Hf|].
  split; [vm_compute; reflexivity|].
  exact (proj1 (proj2 (evidence_for_every_condition either_rule
                         [small_total; known_id] "Purchase" [no_lines]
                         either_data either_flagged eq_refl Hrun Hf))).
Defined.

(** *** The evidence of an ordinary field *)

Lemma string_app_assoc (a b c : string) : (a ++ b) ++ c = a ++ (b ++ c).
Proof. induction a as [|x a IH]; simpl; [|rewrite IH]; reflexivity. Qed.

Lemma join_split (sep : ascii) (s : string) :
  Text.join (String sep "") (Text.split_on sep s) = s.
Proof.
  induction s as [|c s IH]; simpl; [reflexivity|].
  destruct (Ascii.eqb_spec c sep) as [->|Hc].
  - destruct (split_on_cons sep s) as [seg [more Hs]]. rewrite Hs in *.
    simpl. simpl in IH. rewrite IH. reflexivity.
  - destruct (split_on_cons sep s) as [seg [more Hs]]. rewrite Hs in *.
    destruct more as [|m more]; simpl in *; rewrite IH; reflexivity.
Qed.

Lemma join_snoc (sep : string) (xs : list string) (y : string) :
  xs <> [] ->
  Text.join sep (xs ++ [y]) = Text.join sep xs ++ sep ++ y.
Proof.
  induction xs as [|x xs IH]; intros Hne; [contradiction|].
  destruct xs as [|x' xs]; [reflexivity|].
  change (Text.join sep ((x :: x' :: xs) ++ [y]))
    with (x ++ sep ++ Text.join sep ((x' :: xs) ++ [y])).
  rewrite IH by discriminate.
  change (Text.join sep (x :: x' :: xs)) with (x ++ sep ++ Text.join sep (x' :: xs)).
  rewrite !string_app_assoc. reflexivity.
Qed.

(** A dotted path is its parent path, a dot and its last segment. *)
Lemma parent_and_leaf (path : string) :
  Text.join "." (removelast (Text.split_on "." path)) <> "" ->
  path = Text.join "." (removelast (Text.split_on "." path))
         ++ "." ++ last (Text.split_on "." path) "".
Proof.
  intros Hparent.
  assert (Hne : Text.split_on "." path <> []).
  { destruct (split_on_cons "." path) as [seg [more ->]]. discriminate. }
  assert (Hrl : removelast (Text.split_on "." path) <> []).
  { intros Hnil. rewrite Hnil in Hparent. apply Hparent. reflexivity. }
  rewrite <- (join_snoc "." _ _ Hrl).
  rewrite <- (app_removelast_last "" Hne).
  symmetry. apply (join_split "." path).
Qed.

(** X10. The evidence of a condition on an ordinary (not [Line.]) field
    splits the field consistently: with a parent path, the field is the
    parent path, a dot and the field name, the parent object is what the
    parent path resolves to, and resolving the field name from the parent
    object gives the reported value; without one, the parent object is
    the transaction and the field name is the field. *)
Theorem ordinary_evidence_decomposes (transaction : record) (c : condition)
    (m : Matched.t) :
  matched_condition transaction c = Return m ->
  match Matched.flagged_field_data m with
  | NestedFieldData parent_path parent_object field_name field_value =>
      Condition.field c = parent_path ++ "." ++ field_name
      /\ parent_object = getNestedValue (JObj transaction) parent_path
      /\ field_value = Matched.actual_value m
      /\ field_value = getNestedValue parent_object field_name
  | TopFieldData field_name field_value parent_object =>
      Condition.field c = field_name
      /\ parent_object = JObj transaction
      /\ field_value = Matched.actual_value m
      /\ field_value = getNestedValue parent_object field_name
  | NoFieldData | LineFieldData _ _ _ _ =>
      isLineField (Condition.field c) = true
  end.
Proof.
  unfold matched_condition.
  destruct (isLineField (Condition.field c)) eqn:Hline.
  - destruct (lines_findIndex _ _) as [i|e]; simpl; [|discriminate].
    destruct (negb (i =? -1)); simpl; intros H; injection H as <-; reflexivity.
  - destruct (Text.join "." (removelast (Text.split_on "." (Condition.field c))))
      as [|a parent] eqn:Hparent; simpl; intros H; injection H as <-; simpl.
    + auto.
    + assert (Hfield : Condition.field c
                       = String a parent ++ "."
                         ++ last (Text.split_on "." (Condition.field c)) "").
      { rewrite <- Hparent. apply parent_and_leaf. rewrite Hparent. discriminate. }
      split; [exact Hfield|]. split; [reflexivity|]. split; [reflexivity|].
      rewrite Hfield at 1. unfold getNestedValue.
      change (String a parent ++ "."
              ++ last (Text.split_on "." (Condition.field c)) "")
        with (String a parent
              ++ String "." (last (Text.split_on "." (Condition.field c)) "")).
      rewrite split_on_app, fold_left_app. reflexivity.
Qed.

Definition vendor_name : condition :=
  {| Condition.field := "EntityRef.name"; Condition.operator := "contains";
     Condition.value := JStr "acme"; Condition.logical_operator := None |}.

Definition with_vendor : record :=
  [("Id", JStr "4");
   ("EntityRef", JObj [("value", JStr "42"); ("name", JStr "ACME Corp")])].

Definition vendor_evidence : Matched.t :=
  {| Matched.field := "EntityRef.name"; Matched.operator := "contains";
     Matched.value := JStr "acme"; Matched.actual_value := JStr "ACME Corp";
     Matched.flagged_field_data :=
       NestedFieldData "EntityRef"
         (JObj [("value", JStr "42"); ("name", JStr "ACME Corp")])
         "name" (JStr "ACME Corp") |}.

Lemma ordinary_evidence_decomposes_witness :
  matched_condition with_vendor vendor_name = Return vendor_evidence
  /\ Condition.field vendor_name = "EntityRef" ++ "." ++ "name"
  /\ JStr "ACME Corp"
     = getNestedValue (JObj [("value", JStr "42"); ("name", JStr "ACME Corp")]) "name".
Proof.
  assert (Hm : matched_condition with_vendor vendor_name = Return vendor_evidence)
    by (vm_compute; reflexivity).
  split; [exact Hm|].
  pose proof (ordinary_evidence_decomposes with_vendor vendor_name vendor_evidence Hm)
    as H.
  simpl in H. destruct H as [Hfield [_ [_ Hleaf]]].
  split; [exact Hfield|exact Hleaf].
Defined.

(** *** The summary of a batch *)

Lemma flag_loop_length (r : rule) (transactions : list record)
    (acc out : list Flagged.t) :
  flag_loop r transactions acc = Return out ->
  (List.length out <= List.length acc + List.length transactions)%nat.
Proof.
  intros H. apply flag_loop_data in H.
  apply (f_equal (@List.length _)) in H.
  rewrite length_map, length_app, !length_map in H. rewrite H.
  apply Nat.add_le_mono_l, filter_length_le.
Qed.

Lemma executeRule_counts (r : rule) (entity : string)
    (fetched : outcome (list record)) :
  (flagged_of (executeRule r entity fetched)
   <= checked_of (executeRule r entity fetched))%nat.
Proof.
  unfold executeRule, executeRule_try.
  destruct fetched as [transactions|e]; cbn [bind]; [|apply Nat.le_refl].
  destruct transactions as [|t rest]; [apply Nat.le_refl|].
  cbn [List.length Nat.eqb].
  destruct (flag_loop r (t :: rest) []) as [flagged|e] eqn:Hloop; cbn [bind].
  - unfold flagged_of, checked_of. simpl.
    apply (flag_loop_length r (t :: rest) [] flagged Hloop).
  - apply Nat.le_refl.
Qed.

Lemma fold_sum_le {A : Type} (f g : A -> nat) (xs : list A) (a b : nat) :
  (forall x, In x xs -> (f x <= g x)%nat) ->
  (a <= b)%nat ->
  (fold_left (fun acc x => (acc + f x)%nat) xs a
   <= fold_left (fun acc x => (acc + g x)%nat) xs b)%nat.
Proof.
  revert a b. induction xs as [|x xs IH]; intros a b Hfg Hab; simpl; [exact Hab|].
  apply IH.
  - intros y Hy. apply Hfg. right. exact Hy.
  - pose proof (Hfg x (or_introl eq_refl)). lia.
Qed.

(** X11. In the summary of a batch, the successful and the failed runs
    add up to the number of rules executed, which is the number of rules
    given and of results returned, and the total of flagged transactions
    never exceeds the total of checked ones. *)
Theorem batch_summary_adds_up (rules : list rule) (entity : string)
    (fetch : nat -> outcome (list record)) :
  exists bd : BatchData.t,
    BatchResult.data (executeMultipleRules rules entity fetch) = Some bd
    /\ BatchSummary.total_rules_executed (BatchData.summary bd) = List.length rules
    /\ List.length (BatchData.individual_results bd) = List.length rules
    /\ (BatchSummary.successful_executions (BatchData.summary bd)
        + BatchSummary.failed_executions (BatchData.summary bd))%nat
       = BatchSummary.total_rules_executed (BatchData.summary bd)
    /\ (BatchSummary.total_transactions_flagged (BatchData.summary bd)
        <= BatchSummary.total_transactions_checked (BatchData.summary bd))%nat.
Proof.
  unfold executeMultipleRules. rewrite fold_push_result. simpl.
  eexists. split; [reflexivity|]. simpl.
  split; [reflexivity|].
  assert (Hlen : List.length (map (result_of entity fetch) (numbered 0 rules))
                 = List.length rules)
    by (rewrite length_map; apply length_numbered).
  split; [exact Hlen|]. split.
  - rewrite filter_length. exact Hlen.
  - apply fold_sum_le; [|apply Nat.le_refl].
    intros res Hres. apply in_map_iff in Hres.
    destruct Hres as [[k r] [<- _]]. apply executeRule_counts.
Qed.

(** *** Fields inside an array of records *)





(** ** The schema extractor *)

Module Schema.

(** [typeof v === 'object'] *)
Definition typeof_object (v : JSValue.value) : bool :=
  match v with JObj _ | JArr _ | JNull => true | _ => false end.

(** [prefix ? `${prefix}.${key}` : key] *)
Definition extend (prefix key : string) : string :=
  match prefix with
  | EmptyString => key
  | _ => prefix ++ "." ++ key
  end.

(** The key of the element number [i] of an array or a string. *)
Definition index_key (i : nat) : string := digits_of_Z (Z.of_nat i).

(** [extractFieldPaths]. The properties of an object are listed in the
    order in which [for ... in] visits them. An object value is entered;
    an array whose first element is an object (or an array, or [null]) is
    entered through that first element, under the path of the array; any
    other value ends a path. *)
Fixpoint extractFieldPaths (obj : JSValue.value) (prefix : string) {struct obj}
    : list string :=
  match obj with
  | JObj props =>
      (fix entries (ps : list (string * JSValue.value)) : list string :=
         match ps with
         | [] => []
         | (key, v) :: rest =>
             let path := extend prefix key in
             (match v with
              | JObj _ => extractFieldPaths v path
              | JArr (first :: _) =>
                  if typeof_object first then extractFieldPaths first path
                  else [path]
              | _ => [path]
              end ++ entries rest)%list
         end) props
  | JArr items =>
      (fix elements (xs : list JSValue.value) (i : nat) : list string :=
         match xs with
         | [] => []
         | v :: rest =>
             let path := extend prefix (index_key i) in
             (match v with
              | JObj _ => extractFieldPaths v path
              | JArr (first :: _) =>
                  if typeof_object first then extractFieldPaths first path
                  else [path]
              | _ => [path]
              end ++ elements rest (S i))%list
         end) items 0%nat
  | JStr s => map (fun i => extend prefix (index_key i)) (seq 0 (String.length s))
  | _ => []
  end.

End Schema.

Import Schema.

Example extractFieldPaths_sample :
  extractFieldPaths
    (JObj [("Id", JStr "1");
           ("EntityRef", JObj [("value", JStr "42"); ("name", JStr "ACME")]);
           ("Line", JArr [JObj [("Amount", JNum (of_Z 150));
                                ("Tags", JArr [JStr "a"; JStr "b"])];
                          JObj [("Amount", JNum (of_Z 50)); ("Memo", JStr "x")]]);
           ("Codes", JArr []);
           ("Note", JNull)])
    ""
  = ["Id"; "EntityRef.value"; "EntityRef.name"; "Line.Amount"; "Line.Tags";
     "Codes"; "Note"].
Proof. vm_compute. reflexivity. Qed.

(** Induction on JSON values, with the hypothesis for every element of an
    array and every property value of an object. *)
Fixpoint value_nested_ind (P : JSValue.value -> Prop)
    (Hundefined : P JUndefined) (Hnull : P JNull)
    (Hbool : forall b, P (JBool b)) (Hnum : forall n, P (JNum n))
    (Hstr : forall s, P (JStr s))
    (Harr : forall items, Forall P items -> P (JArr items))
    (Hobj : forall props, Forall (fun kv => P (snd kv)) props -> P (JObj props))
    (v : JSValue.value) {struct v} : P v :=
  let rec := value_nested_ind P Hundefined Hnull Hbool Hnum Hstr Harr Hobj in
  match v with
  | JUndefined => Hundefined
  | JNull => Hnull
  | JBool b => Hbool b
  | JNum n => Hnum n
  | JStr s => Hstr s
  | JArr items =>
      Harr items
        ((fix all (xs : list JSValue.value) : Forall P xs :=
            match xs with
            | [] => Forall_nil P
            | x :: xs' => Forall_cons x (rec x) (all xs')
            end) items)
  | JObj props =>
      Hobj props
        ((fix all (ps : list (string * JSValue.value))
            : Forall (fun kv => P (snd kv)) ps :=
            match ps with
            | [] => Forall_nil _
            | kv :: ps' => Forall_cons kv (rec (snd kv)) (all ps')
            end) props)
  end.

(** The paths that one property, or one element, contributes. *)
Definition entry_paths (prefix key : string) (v : JSValue.value) : list string :=
  let path := extend prefix key in
  match v with
  | JObj _ => extractFieldPaths v path
  | JArr (first :: _) =>
      if typeof_object first then extractFieldPaths first path else [path]
  | _ => [path]
  end.

Lemma extractFieldPaths_object (props : list (string * JSValue.value))
    (prefix : string) :
  extractFieldPaths (JObj props) prefix
  = flat_map (fun kv => entry_paths prefix (fst kv) (snd kv)) props.
Proof.
  simpl. induction props as [|[key v] props IH]; [reflexivity|].
  simpl. rewrite IH. reflexivity.
Qed.

Lemma extractFieldPaths_array_from (items : list JSValue.value) (prefix : string)
    (i : nat) :
  (fix elements (xs : list JSValue.value) (i : nat) : list string :=
     match xs with
     | [] => []
     | v :: rest =>
         (entry_paths prefix (index_key i) v ++ elements rest (S i))%list
     end) items i
  = flat_map (fun kv => entry_paths prefix (index_key (fst kv)) (snd kv))
      (combine (seq i (List.length items)) items).
Proof.
  revert i. induction items as [|v items IH]; intros i; [reflexivity|].
  simpl. rewrite IH. reflexivity.
Qed.

Lemma extractFieldPaths_array (items : list JSValue.value) (prefix : string) :
  extractFieldPaths (JArr items) prefix
  = flat_map (fun kv => entry_paths prefix (index_key (fst kv)) (snd kv))
      (combine (seq 0 (List.length items)) items).
Proof. exact (extractFieldPaths_array_from items prefix 0). Qed.

Definition under (prefix path : string) : Prop :=
  exists rest, path = prefix ++ "." ++ rest.

Lemma extend_nonempty (prefix key : string) :
  prefix <> "" -> extend prefix key = prefix ++ "." ++ key.
Proof. destruct prefix; [contradiction|reflexivity]. Qed.

Lemma extend_not_empty (prefix key : string) :
  prefix <> "" -> extend prefix key <> "".
Proof. destruct prefix; [contradiction|discriminate]. Qed.

Lemma under_extend (prefix key path : string) :
  prefix <> "" -> under (extend prefix key) path -> under prefix path.
Proof.
  intros Hne [rest ->]. rewrite (extend_nonempty _ _ Hne).
  exists (key ++ "." ++ rest). rewrite !string_app_assoc. reflexivity.
Qed.

Definition all_under (v : JSValue.value) : Prop :=
  forall prefix, prefix <> "" -> Forall (under prefix) (extractFieldPaths v prefix).

Lemma entry_paths_under (prefix key : string) (v : JSValue.value) :
  all_under v ->
  (forall first rest, v = JArr (first :: rest) -> all_under first) ->
  prefix <> "" ->
  Forall (under prefix) (entry_paths prefix key v).
Proof.
  intros Hv Hfirst Hne.
  assert (Hself : Forall (under prefix) [extend prefix key]).
  { constructor; [|constructor]. exists key. apply extend_nonempty, Hne. }
  assert (Hsub : forall w, all_under w ->
                 Forall (under prefix) (extractFieldPaths w (extend prefix key))).
  { intros w Hw.
    eapply Forall_impl; [|apply Hw, extend_not_empty, Hne].
    intros path. apply under_extend, Hne. }
  unfold entry_paths.
  destruct v as [| | | | |items|props]; try exact Hself.
  - destruct items as [|first items]; [exact Hself|].
    destruct (typeof_object first); [|exact Hself].
    apply Hsub. apply (Hfirst first items). reflexivity.
  - apply Hsub. exact Hv.
Qed.

Lemma all_under_everywhere (v : JSValue.value) :
  all_under v /\ (forall first rest, v = JArr (first :: rest) -> all_under first).
Proof.
  induction v as [| | | | s |items IH|props IH] using value_nested_ind;
    (split; [|try discriminate]).
  - intros prefix Hne. constructor.
  - intros prefix Hne. constructor.
  - intros prefix Hne. constructor.
  - intros prefix Hne. constructor.
  - intros prefix Hne. simpl. apply Forall_forall. intros path Hin.
    apply in_map_iff in Hin. destruct Hin as [i [<- _]].
    exists (index_key i). apply extend_nonempty, Hne.
  - intros prefix Hne. rewrite extractFieldPaths_array.
    apply Forall_flat_map, Forall_forall.
    intros [i v] Hin. simpl. apply in_combine_r in Hin.
    rewrite Forall_forall in IH. destruct (IH v Hin) as [Hv Hfirst].
    apply entry_paths_under; assumption.
  - intros first rest H. injection H as ->.
    apply (proj1 (Forall_inv IH)).
  - intros prefix Hne. rewrite extractFieldPaths_object.
    apply Forall_flat_map, Forall_forall.
    intros [key v] Hin. simpl.
    rewrite Forall_forall in IH. destruct (IH (key, v) Hin) as [Hv Hfirst].
    apply entry_paths_under; assumption.
Qed.

(** X13. With a prefix that is not empty, every path that
    [extractFieldPaths] returns is the prefix, a dot and something more:
    the fields of a nested object, and those of the first record of an
    array, all lie under the path of their container. *)
Theorem extracted_paths_under_prefix (obj : JSValue.value) (prefix : string) :
  prefix <> "" ->
  Forall (fun path => exists rest, path = prefix ++ "." ++ rest)
         (extractFieldPaths obj prefix).
Proof. exact (proj1 (all_under_everywhere obj) prefix). Qed.

Lemma extracted_paths_under_prefix_witness :
  "Line" <> ""
  /\ Forall (fun path => exists rest, path = "Line" ++ "." ++ rest)
       (extractFieldPaths (JObj [("Amount", JNum (of_Z 150)); ("Memo", JStr "x")])
          "Line").
Proof.
  assert (Hne : "Line" <> "") by discriminate.
  split; [exact Hne|].
  exact (extracted_paths_under_prefix
           (JObj [("Amount", JNum (of_Z 150)); ("Memo", JStr "x")]) "Line" Hne).
Defined.

(** A value at which a path ends: anything but an object and an array
    that starts with a record. *)
Definition ends_path (v : JSValue.value) : bool :=
  match v with
  | JObj _ => false
  | JArr (first :: _) => negb (typeof_object first)
  | _ => true
  end.

(** X14. The paths of a flat record, one whose values all end a path, are
    its keys, in the order of the record. *)
Theorem flat_record_paths (props : list (string * JSValue.value)) :
  forallb (fun kv => ends_path (snd kv)) props = true ->
  extractFieldPaths (JObj props) "" = map fst props.
Proof.
  rewrite extractFieldPaths_object.
  induction props as [|[key v] props IH]; intros H; [reflexivity|].
  simpl in H. apply andb_true_iff in H. destruct H as [Hv H].
  simpl. rewrite (IH H). f_equal.
  unfold entry_paths. simpl.
  destruct v as [| | | | |[|first items]|]; try reflexivity; simpl in Hv.
  - destruct (typeof_object first); [discriminate|reflexivity].
  - discriminate.
Qed.

Lemma flat_record_paths_witness :
  forallb (fun kv => ends_path (snd kv)) no_lines = true
  /\ extractFieldPaths (JObj no_lines) "" = ["Id"; "TotalAmt"].
Proof.
  split; [reflexivity|].
  apply (flat_record_paths no_lines). reflexivity.
Defined.

(** *** Extracted paths that resolve *)

Definition dot_free (key : string) : bool :=
  Text.all_chars (fun ch => negb (Ascii.eqb ch ".")) key.

(** A key that [getNestedValue] takes as it is: not empty, without a dot,
    and not made of digits only. *)
Definition plain_key (key : string) : bool :=
  negb (key =? "")%string && dot_free key
  && negb (Text.all_chars Text.is_digit key).

Fixpoint distinct (keys : list string) : bool :=
  match keys with
  | [] => true
  | key :: rest => negb (existsb (String.eqb key) rest) && distinct rest
  end.

(** Records made of objects within objects: keys are plain and distinct,
    and no array holds records. *)
Fixpoint nested_objects (v : JSValue.value) : bool :=
  match v with
  | JObj props =>
      distinct (map fst props)
      && forallb (fun '(key, w) =>
                    plain_key key
                    && match w with
                       | JObj _ => nested_objects w
                       | JUndefined => false
                       | _ => ends_path w
                       end) props
  | _ => true
  end.

Lemma span_dot_free (key : string) :
  dot_free key = true -> Text.split_on "." key = [key].
Proof.
  unfold dot_free, Text.all_chars.
  induction key as [|ch key IH]; simpl; [reflexivity|].
  destruct (Ascii.eqb ch "."); simpl; [discriminate|].
  destruct (Text.span (fun ch0 => negb (Ascii.eqb ch0 ".")) key) as [a b] eqn:Hs.
  simpl in *. intros H. rewrite (IH H). reflexivity.
Qed.

Lemma nested_step_plain_key (props : list (string * JSValue.value)) (key : string) :
  plain_key key = true -> nested_step (JObj props) key = lookup key props.
Proof.
  unfold plain_key. intros H.
  apply andb_true_iff in H. destruct H as [H Hdigits].
  apply andb_true_iff in H. destruct H as [Hne _].
  apply negb_true_iff in Hdigits.
  unfold nested_step. simpl.
  destruct key as [|ch key]; [discriminate|].
  rewrite Hdigits. reflexivity.
Qed.

Lemma lookup_distinct (props : list (string * JSValue.value)) (key : string)
    (v : JSValue.value) :
  distinct (map fst props) = true -> In (key, v) props -> lookup key props = v.
Proof.
  induction props as [|[k w] props IH]; intros Hd Hin; [contradiction|].
  simpl in Hd. apply andb_true_iff in Hd. destruct Hd as [Hk Hd].
  simpl. destruct Hin as [Heq|Hin].
  - injection Heq as -> ->. rewrite String.eqb_refl. reflexivity.
  - destruct (String.eqb_spec k key) as [->|Hne]; [|apply IH; assumption].
    apply negb_true_iff in Hk.
    assert (Hex : existsb (String.eqb key) (map fst props) = true).
    { apply existsb_exists. exists key. split; [|apply String.eqb_refl].
      apply in_map_iff. exists (key, v). auto. }
    rewrite Hex in Hk. discriminate.
Qed.

Definition resolves_from (v : JSValue.value) (rel : string) : Prop :=
  ends_path (getNestedValue v rel) = true /\ getNestedValue v rel <> JUndefined.

Lemma extend_extend (prefix key rel : string) :
  key <> "" -> extend (extend prefix key) rel = extend prefix (key ++ "." ++ rel).
Proof.
  intros Hkey. destruct prefix as [|a prefix].
  - simpl. destruct key; [contradiction|reflexivity].
  - simpl. rewrite !string_app_assoc. reflexivity.
Qed.

Lemma nested_objects_resolve (v : JSValue.value) :
  forall props prefix path,
    v = JObj props ->
    nested_objects v = true ->
    In path (extractFieldPaths v prefix) ->
    exists rel, path = extend prefix rel /\ resolves_from v rel.
Proof.
  induction v as [| | | | s |items IH|props0 IH] using value_nested_ind;
    intros props prefix path Hv Hwf Hin; try discriminate Hv.
  injection Hv as <-.
  simpl in Hwf. apply andb_true_iff in Hwf. destruct Hwf as [Hdistinct Hall].
  rewrite extractFieldPaths_object in Hin. apply in_flat_map in Hin.
  destruct Hin as [[key w] [Hkw Hin]]. simpl in Hin.
  rewrite forallb_forall in Hall. pose proof (Hall _ Hkw) as Hentry.
  simpl in Hentry. apply andb_true_iff in Hentry. destruct Hentry as [Hkey Hw].
  rewrite Forall_forall in IH. pose proof (IH _ Hkw) as IHw. simpl in IHw.
  assert (Hstep : fold_left nested_step (Text.split_on "." key) (JObj props0) = w).
  { unfold plain_key in Hkey.
    pose proof Hkey as Hkey'.
    apply andb_true_iff in Hkey'. destruct Hkey' as [Hkey' _].
    apply andb_true_iff in Hkey'. destruct Hkey' as [_ Hdot].
    rewrite (span_dot_free key Hdot). simpl.
    rewrite (nested_step_plain_key props0 key Hkey).
    apply lookup_distinct; assumption. }
  assert (Hkey_ne : key <> "").
  { unfold plain_key in Hkey. destruct key; [discriminate|discriminate]. }
  assert (Hleaf : ends_path w = true -> w <> JUndefined ->
                  In path [extend prefix key] ->
                  exists rel, path = extend prefix rel /\ resolves_from (JObj props0) rel).
  { intros Hends Hdef [<-|[]]. exists key. split; [reflexivity|].
    unfold resolves_from, getNestedValue. rewrite Hstep. auto. }
  unfold entry_paths in Hin.
  destruct w as [| | | | |[|first items]|wprops];
    try discriminate Hw;
    try (apply Hleaf; [reflexivity|discriminate|exact Hin]).
  - simpl in Hw. pose proof Hw as Hfirst. apply negb_true_iff in Hfirst.
    rewrite Hfirst in Hin.
    apply Hleaf; [exact Hw|discriminate|exact Hin].
  - destruct (IHw wprops (extend prefix key) path eq_refl Hw Hin)
      as [rel [-> [Hends Hdef]]].
    exists (key ++ "." ++ rel). split; [apply extend_extend, Hkey_ne|].
    unfold resolves_from, getNestedValue in *.
    change (key ++ "." ++ rel) with (key ++ String "." rel).
    rewrite split_on_app, fold_left_app, Hstep. auto.
Qed.

(** X15. On a record made of objects within objects, with plain and
    distinct keys and no array of records, every path that
    [extractFieldPaths] returns resolves with [getNestedValue], from the
    same record, to a value that is there and that ends a path. *)
Theorem extracted_paths_resolve (props : list (string * JSValue.value))
    (path : string) :
  nested_objects (JObj props) = true ->
  In path (extractFieldPaths (JObj props) "") ->
  getNestedValue (JObj props) path <> JUndefined
  /\ ends_path (getNestedValue (JObj props) path) = true.
Proof.
  intros Hwf Hin.
  destruct (nested_objects_resolve (JObj props) props "" path eq_refl Hwf Hin)
    as [rel [-> [Hends Hdef]]].
  simpl. auto.
Qed.

Lemma extracted_paths_resolve_witness :
  nested_objects (JObj with_vendor) = true
  /\ In "EntityRef.name" (extractFieldPaths (JObj with_vendor) "")
  /\ getNestedValue (JObj with_vendor) "EntityRef.name" <> JUndefined
  /\ ends_path (getNestedValue (JObj with_vendor) "EntityRef.name") = true.
Proof.
  assert (Hwf : nested_objects (JObj with_vendor) = true) by reflexivity.
  assert (Hin : In "EntityRef.name" (extractFieldPaths (JObj with_vendor) ""))
    by (right; right; left; reflexivity).
  split; [exact Hwf|]. split; [exact Hin|].
  exact (extracted_paths_resolve with_vendor "EntityRef.name" Hwf Hin).
Defined.

(** ** More on rules and line items *)

(** X16. A rule that has no condition list at all passes every
    transaction, and then fails on every batch that is not empty, since
    the evidence step maps over the missing list; on an empty batch it
    succeeds. *)
Theorem missing_conditions_fail (r : rule) (entity : string) :
  Rule.conditions r = None ->
  (forall transaction : record,
      evaluateConditions transaction (Rule.conditions r) = true)
  /\ (forall (t : record) (rest : list record),
         executeRule r entity (Return (t :: rest))
         = rule_failure
             (TypeError "Cannot read properties of undefined (reading 'map')"))
  /\ Result.success (executeRule r entity (Return [])) = true.
Proof.
  intros Hnone. split; [|split].
  - intros transaction. rewrite Hnone. reflexivity.
  - intros t rest. unfold executeRule, executeRule_try.
    cbn [bind List.length Nat.eqb flag_loop].
    rewrite Hnone. unfold conditions_map. rewrite Hnone. reflexivity.
  - reflexivity.
Qed.

Definition bare_rule : rule :=
  {| Rule.id := JStr "r-0"; Rule.rule_type := JStr "bare";
     Rule.conditions := None;
     Rule.action := JStr "flag"; Rule.reason := JStr "none" |}.

Lemma missing_conditions_fail_witness :
  Rule.conditions bare_rule = None
  /\ Result.success (executeRule bare_rule "Purchase" (Return [no_lines])) = false
  /\ Result.success (executeRule bare_rule "Purchase" (Return [])) = true.
Proof.
  split; [reflexivity|].
  destruct (missing_conditions_fail bare_rule "Purchase" eq_refl) as [_ [Hfail Hempty]].
  split; [rewrite (Hfail no_lines []); reflexivity|exact Hempty].
Defined.

Definition on_line (sub op : string) (v : JSValue.value) : condition :=
  {| Condition.field := "Line." ++ sub; Condition.operator := op;
     Condition.value := v; Condition.logical_operator := None |}.

Lemma on_line_holds (transaction : record) (items : list JSValue.value)
    (sub op : string) (v line : JSValue.value) :
  getProp (JObj transaction) "Line" = JArr items ->
  In line items ->
  compare (getNestedValue line sub) op v = true ->
  evaluateCondition transaction (on_line sub op v) = true.
Proof.
  intros Hline Hin Hcmp. unfold evaluateCondition.
  cbn [on_line Condition.field].
  rewrite isLineField_prefixed, drop_Line_prefix, Hline.
  apply existsb_exists. exists line. split; [exact Hin|exact Hcmp].
Qed.

(** X17. On a line field the negated operators are not the negations of
    the plain ones: when one line item has the value and another line
    item has a different value, the [eq] condition and the [ne] condition
    on that field and value both hold of the transaction. *)
Theorem line_eq_and_ne_both_hold (transaction : record)
    (items : list JSValue.value) (sub : string) (v same other : JSValue.value) :
  getProp (JObj transaction) "Line" = JArr items ->
  In same items -> In other items ->
  compare (getNestedValue same sub) "eq" v = true ->
  compare (getNestedValue other sub) "ne" v = true ->
  evaluateCondition transaction (on_line sub "eq" v) = true
  /\ evaluateCondition transaction (on_line sub "ne" v) = true.
Proof.
  intros Hline Hsame Hother Heq Hne.
  split.
  - exact (on_line_holds transaction items sub "eq" v same Hline Hsame Heq).
  - exact (on_line_holds transaction items sub "ne" v other Hline Hother Hne).
Qed.

Definition fee_and_tax : record :=
  [("Id", JStr "7");
   ("Line", JArr [JObj [("Kind", JStr "fee")]; JObj [("Kind", JStr "tax")]])].

Lemma line_eq_and_ne_both_hold_witness :
  getProp (JObj fee_and_tax) "Line"
  = JArr [JObj [("Kind", JStr "fee")]; JObj [("Kind", JStr "tax")]]
  /\ compare (getNestedValue (JObj [("Kind", JStr "tax")]) "Kind") "eq" (JStr "tax") = true
  /\ compare (getNestedValue (JObj [("Kind", JStr "fee")]) "Kind") "ne" (JStr "tax") = true
  /\ evaluateCondition fee_and_tax (on_line "Kind" "eq" (JStr "tax")) = true
  /\ evaluateCondition fee_and_tax (on_line "Kind" "ne" (JStr "tax")) = true.
Proof.
  split; [reflexivity|]. split; [reflexivity|]. split; [reflexivity|].
  apply (line_eq_and_ne_both_hold fee_and_tax
           [JObj [("Kind", JStr "fee")]; JObj [("Kind", JStr "tax")]]
           "Kind" (JStr "tax") (JObj [("Kind", JStr "tax")])
           (JObj [("Kind", JStr "fee")])).
  - reflexivity.
  - right; left; reflexivity.
  - left; reflexivity.
  - reflexivity.
  - reflexivity.
Defined.

(** *** Which line the evidence names *)

Lemma findIndex_from_none {A : Type} (p : A -> bool) (xs : list A) (from : Z) :
  0 <= from ->
  (findIndex_from p xs from = -1 <-> existsb p xs = false).
Proof.
  revert from. induction xs as [|x xs IH]; intros from Hfrom; simpl.
  - tauto.
  - destruct (p x); simpl.
    + split; [lia|discriminate].
    + apply IH. lia.
Qed.

Lemma findIndex_from_first {A : Type} (p : A -> bool) (xs : list A) (from : Z)
    (d : A) (j : nat) :
  0 <= from ->
  findIndex_from p xs from <> -1 ->
  from + Z.of_nat j < findIndex_from p xs from ->
  p (nth j xs d) = false.
Proof.
  revert from j. induction xs as [|x xs IH]; intros from j Hfrom Hfound Hlt;
    simpl in *; [contradiction|].
  destruct (p x) eqn:Hx; [lia|].
  destruct j as [|j]; [exact Hx|].
  apply (IH (from + 1) j); [lia|exact Hfound|lia].
Qed.

(** X18. In the evidence of a [Line.] condition, the field data is [null]
    exactly when the condition does not hold of the transaction;
    otherwise it names a line item that satisfies the condition, and no
    line item before it does. *)
Theorem line_evidence_names_first_match (transaction : record) (c : condition)
    (subPath : string) (m : Matched.t) :
  Condition.field c = "Line." ++ subPath ->
  matched_condition transaction c = Return m ->
  (Matched.flagged_field_data m = NoFieldData
   <-> evaluateCondition transaction c = false)
  /\ forall (i : Z) (line : JSValue.value) (path : string) (v : JSValue.value),
       Matched.flagged_field_data m = LineFieldData i line path v ->
       0 <= i
       /\ line_matches subPath c line = true
       /\ exists items,
            getProp (JObj transaction) "Line" = JArr items
            /\ line = nth (Z.to_nat i) items JUndefined
            /\ forall j : nat,
                 Z.of_nat j < i ->
                 line_matches subPath c (nth j items JUndefined) = false.
Proof.
  intros Hfield Hm.
  destruct (matched_condition_line transaction c subPath m Hfield Hm)
    as [items [Hline ->]].
  unfold evaluateCondition.
  rewrite Hfield, isLineField_prefixed, drop_Line_prefix, Hline.
  unfold line_evidence. simpl.
  pose proof (findIndex_from_none (line_matches subPath c) items 0 ltac:(lia))
    as Hnone.
  fold (findIndex (line_matches subPath c) items) in Hnone.
  destruct (findIndex (line_matches subPath c) items =? -1) eqn:Hi.
  - apply Z.eqb_eq in Hi. split.
    + split; [intros _; apply Hnone, Hi|reflexivity].
    + intros i line path v H. discriminate H.
  - apply Z.eqb_neq in Hi. split.
    + split; [discriminate|]. intros Hex. apply Hnone in Hex. contradiction.
    + intros i line path v H. injection H as <- <- <- <-.
      destruct (findIndex_found (line_matches subPath c) items JUndefined Hi)
        as [Hpos Hp].
      split; [exact Hpos|]. split; [exact Hp|].
      exists items. split; [reflexivity|]. split; [reflexivity|].
      intros j Hj.
      apply (findIndex_from_first (line_matches subPath c) items 0 JUndefined j);
        [lia|exact Hi|].
      fold (findIndex (line_matches subPath c) items). lia.
Qed.

Definition second_is_large : record :=
  [("Id", JStr "8");
   ("Line", JArr [JObj [("Amount", JNum (of_Z 50))];
                  JObj [("Amount", JNum (of_Z 150))];
                  JObj [("Amount", JNum (of_Z 900))]])].

Definition second_evidence : Matched.t :=
  {| Matched.field := "Line.Amount"; Matched.operator := "gt";
     Matched.value := JNum (of_Z 100); Matched.actual_value := JUndefined;
     Matched.flagged_field_data :=
       LineFieldData 1 (JObj [("Amount", JNum (of_Z 150))]) "Line.Amount" JUndefined |}.

Lemma line_evidence_names_first_match_witness :
  Condition.field large_line = "Line." ++ "Amount"
  /\ matched_condition second_is_large large_line = Return second_evidence
  /\ line_matches "Amount" large_line (JObj [("Amount", JNum (of_Z 150))]) = true.
Proof.
  assert (Hm : matched_condition second_is_large large_line = Return second_evidence)
    by (vm_compute; reflexivity).
  split; [reflexivity|]. split; [exact Hm|].
  destruct (proj2 (line_evidence_names_first_match second_is_large large_line
                     "Amount" second_evidence eq_refl Hm)
              1 (JObj [("Amount", JNum (of_Z 150))]) "Line.Amount" JUndefined
              eq_refl) as [_ [Hp _]].
  exact Hp.
Defined.

(** ** Fetching from the data source *)

Module Fetcher.

(** What [fetch] resolves to, as far as the callers look at it; [json] is
    the outcome of [res.json()]. *)
Record response : Type := {
  ok : bool;
  status : number;
  statusText : string;
  json : outcome JSValue.value
}.

(** Truthiness of a value. *)
Definition truthy (v : JSValue.value) : bool :=
  match v with
  | JUndefined | JNull => false
  | JBool b => b
  | JNum (S754_zero _) | JNum S754_nan => false
  | JNum _ => true
  | JStr EmptyString => false
  | JStr _ => true
  | JArr _ | JObj _ => true
  end.

(** [v.key], which throws on [null] and [undefined]. *)
Definition member (v : JSValue.value) (key : string) : outcome JSValue.value :=
  match v with
  | JNull =>
      Throw (TypeError ("Cannot read properties of null (reading '" ++ key ++ "')"))
  | JUndefined =>
      Throw (TypeError ("Cannot read properties of undefined (reading '" ++ key ++ "')"))
  | _ => Return (getProp v key)
  end.

(** [new Error(`QuickBooks API error: ${res.status} ${res.statusText}`)] *)
Definition api_error (res : response) : exn :=
  Error ("QuickBooks API error: " ++ JSNumber.to_string (status res)
         ++ " " ++ statusText res).

(** [data.QueryResponse && data.QueryResponse[entity]] *)
Definition records_of (data : JSValue.value) (entity : string)
    : outcome JSValue.value :=
  queryResponse <- member data "QueryResponse" ;;
  if truthy queryResponse then Return (getProp queryResponse entity)
  else Return queryResponse.

Definition getQuickBooksFields (fetched : outcome response) (entity : string)
    : outcome (list string) :=
  res <- fetched ;;
  if negb (ok res) then Throw (api_error res)
  else
    data <- json res ;;
    records <- records_of data entity ;;
    if negb (truthy records) || negb (truthy (getProp records "length"))
    then Throw (Error ("No records found for entity: " ++ entity))
    else Return (extractFieldPaths (item_at records 0) "").

Definition fetchQuickBooksData (fetched : outcome response) (entity : string)
    : outcome JSValue.value :=
  res <- fetched ;;
  if negb (ok res) then Throw (api_error res)
  else
    data <- json res ;;
    records <- records_of data entity ;;
    if negb (truthy records) then Return (JArr [])
    else Return records.

Definition getQuickBooksDataContext (fetched : outcome response)
    : outcome JSValue.value :=
  res <- fetched ;;
  if negb (ok res) then Throw (api_error res)
  else json res.

End Fetcher.

Import Fetcher.

Definition two_purchases : JSValue.value :=
  JObj [("QueryResponse",
         JObj [("Purchase", JArr [JObj no_lines; JObj two_lines]);
               ("maxResults", JNum (of_Z 2))]);
        ("time", JStr "2024-01-01")].

Definition answers (body : JSValue.value) : outcome response :=
  Return {| ok := true; status := of_Z 200; statusText := "OK";
            json := Return body |}.

Example fetch_sample :
  fetchQuickBooksData (answers two_purchases) "Purchase"
  = Return (JArr [JObj no_lines; JObj two_lines])
  /\ getQuickBooksFields (answers two_purchases) "Purchase"
     = Return ["Id"; "TotalAmt"]
  /\ fetchQuickBooksData (answers two_purchases) "Invoice" = Return (JArr [])
  /\ getQuickBooksFields
       (Return {| ok := false; status := of_Z 401; statusText := "Unauthorized";
                  json := Return JNull |}) "Purchase"
     = Throw (Error "QuickBooks API error: 401 Unauthorized").
Proof. vm_compute. repeat split. Qed.

(** X19. The two readers of the data source agree on failures and differ
    on an entity without records. Whatever [fetchQuickBooksData] throws,
    [getQuickBooksFields] throws too; what [fetchQuickBooksData] returns
    is never [null], [undefined] or another falsy value; where it returns
    the empty list, [getQuickBooksFields] throws "No records found"; and
    when [getQuickBooksFields] returns, the fields are those of the first
    record of what [fetchQuickBooksData] returns, later records having no
    part in them. *)
Theorem readers_of_the_source (fetched : outcome response) (entity : string) :
  (forall e, fetchQuickBooksData fetched entity = Throw e ->
             getQuickBooksFields fetched entity = Throw e)
  /\ (forall records, fetchQuickBooksData fetched entity = Return records ->
                      truthy records = true)
  /\ (fetchQuickBooksData fetched entity = Return (JArr []) ->
      getQuickBooksFields fetched entity
      = Throw (Error ("No records found for entity: " ++ entity)))
  /\ (forall paths, getQuickBooksFields fetched entity = Return paths ->
        exists records,
          fetchQuickBooksData fetched entity = Return records
          /\ truthy (getProp records "length") = true
          /\ paths = extractFieldPaths (item_at records 0) "").
Proof.
  unfold fetchQuickBooksData, getQuickBooksFields.
  destruct fetched as [res|e0]; cbn [bind].
  2:{ repeat split; intros; try discriminate; congruence. }
  destruct (ok res); cbn [negb].
  2:{ repeat split; intros; try discriminate; congruence. }
  destruct (json res) as [data|e1]; cbn [bind].
  2:{ repeat split; intros; try discriminate; congruence. }
  destruct (records_of data entity) as [records|e2]; cbn [bind].
  2:{ repeat split; intros; try discriminate; congruence. }
  destruct (truthy records) eqn:Ht; cbn [negb orb].
  - split; [discriminate|].
    split; [intros r H; injection H as <-; exact Ht|].
    split.
    + intros H. injection H as ->. reflexivity.
    + destruct (truthy (getProp records "length")) eqn:Hl; cbn [negb];
        [|discriminate].
      intros paths H. injection H as <-. exists records. auto.
  - split; [discriminate|].
    split; [intros r H; injection H as <-; reflexivity|].
    split; [reflexivity|discriminate].
Qed.

Lemma readers_of_the_source_witness :
  fetchQuickBooksData (answers two_purchases) "Invoice" = Return (JArr [])
  /\ getQuickBooksFields (answers two_purchases) "Invoice"
     = Throw (Error ("No records found for entity: " ++ "Invoice"))
  /\ getQuickBooksFields (answers two_purchases) "Purchase" = Return ["Id"; "TotalAmt"]
  /\ exists records,
       fetchQuickBooksData (answers two_purchases) "Purchase" = Return records
       /\ truthy (getProp records "length") = true
       /\ ["Id"; "TotalAmt"] = extractFieldPaths (item_at records 0) "".
Proof.
  assert (Hempty : fetchQuickBooksData (answers two_purchases) "Invoice"
                   = Return (JArr [])) by (vm_compute; reflexivity).
  assert (Hfields : getQuickBooksFields (answers two_purchases) "Purchase"
                    = Return ["Id"; "TotalAmt"]) by (vm_compute; reflexivity).
  split; [exact Hempty|].
  split; [exact (proj1 (proj2 (proj2 (readers_of_the_source
                                        (answers two_purchases) "Invoice"))) Hempty)|].
  split; [exact Hfields|].
  exact (proj2 (proj2 (proj2 (readers_of_the_source
                                (answers two_purchases) "Purchase"))) _ Hfields).
Defined.
